(** * Order lifecycle, fee rules and metrics of the payment-link dashboard

    A shallow embedding of
    - [src/types.ts]: the data model and the [db] persistence gateway
      (remote first, local cache on failure),
    - [src/unnamed/part_000]: the Express/Mongoose backend handlers,
    - [src/components/AdminDashboard.tsx]: the fee simulation, the link
      generator and the financial card.

    JavaScript numbers are IEEE-754 binary64 values: they are modelled by
    Rocq's primitive [float], so every arithmetic step below is the one the
    program performs, rounding included. *)

From Stdlib Require Import Floats ZArith NArith Ascii.
From stdpp Require Import base option list sorting strings pretty.

Set Warnings "-inexact-float,-register-all".
Local Open Scope string_scope.

(** ** Data model ([src/types.ts]) *)

Inductive OrderStatus := pending | completed | expired | cancelled | refunded.

#[global] Instance OrderStatus_eq_dec : EqDecision OrderStatus.
Proof. solve_decision. Defined.

(** ISO-8601 text as produced by [new Date().toISOString()]. *)
Definition Timestamp := string.

Module Store.
Record t := mk {
  id : string;
  name : string;
  description : option string;
  apiKey : option string;
  pixFeePercentage : option float;
  pixFeeFixed : option float;
  createdAt : Timestamp
}.
End Store.

(** [Order extends PaymentIntent, PixGoCustomer]: an optional key of the
    TypeScript interface is an [option], [None] standing for an absent (or
    [undefined]) key, which [JSON.stringify] omits. *)
Module Order.
Record t := mk {
  id : string;
  amount : float;
  description : string;
  createdAt : Timestamp;
  status : OrderStatus;
  pixgo_payment_id : option string;
  qr_code : option string;
  qr_image_url : option string;
  store_id : option string;
  store_name : option string;
  customer_name : option string;
  customer_cpf : option string;
  customer_email : option string;
  customer_phone : option string;
  customer_address : option string;
  updatedAt : Timestamp
}.

(** [{ ...order, updatedAt: t }] *)
Definition with_updatedAt (t : Timestamp) (o : Order.t) : Order.t :=
  mk (id o) (amount o) (description o) (createdAt o) (status o)
     (pixgo_payment_id o) (qr_code o) (qr_image_url o)
     (store_id o) (store_name o)
     (customer_name o) (customer_cpf o) (customer_email o)
     (customer_phone o) (customer_address o) t.

(** [order.status = s; order.updatedAt = t] *)
Definition with_status (s : OrderStatus) (t : Timestamp) (o : Order.t) : Order.t :=
  mk (id o) (amount o) (description o) (createdAt o) s
     (pixgo_payment_id o) (qr_code o) (qr_image_url o)
     (store_id o) (store_name o)
     (customer_name o) (customer_cpf o) (customer_email o)
     (customer_phone o) (customer_address o) t.
End Order.

(** The shape returned by [db.getMetrics] and by [/api/dashboard/metrics]. *)
Record Metrics := {
  totalOrders : nat;
  totalRevenue : float;
  pendingOrders : nat;
  conversionRate : string
}.

(** ** JavaScript values and control *)

Inductive Exn :=
  | SyntaxError            (* JSON.parse on text that is not JSON *)
  | TypeError              (* a property read on null, a call of a non-function *)
  | NetworkError           (* axios: no response from the backend *)
  | AxiosError (code : nat). (* axios: response outside 2xx *)

(** A computation either returns or throws. *)
Inductive Js (A : Type) :=
  | Ret (a : A)
  | Throw (e : Exn).
Arguments Ret {A} a.
Arguments Throw {A} e.

(** [try { c } catch { h }] *)
Definition try_catch {A} (c : Js A) (h : Exn → Js A) : Js A :=
  match c with
  | Ret a => Ret a
  | Throw e => h e
  end.

Definition rejected {A} (r : Js A) : Prop := ∃ e, r = Throw e.

Module Number.
Local Open Scope float_scope.

(** An array length or document count as a JavaScript number. Lengths are
    below 2^32, far inside the range where the conversion is exact. *)
Definition of_nat (n : nat) : float :=
  PrimFloat.of_uint63 (Uint63.of_Z (Z.of_nat n)).

(** [isNaN(x)] *)
Definition isNaN (x : float) : bool := PrimFloat.is_nan x.

(** [x || 0] on an optional number: [undefined], [NaN], [0] and [-0] are
    falsy and give [0]. *)
Definition or_zero (x : option float) : float :=
  match x with
  | Some v => if PrimFloat.is_nan v || (v =? 0) then 0 else v
  | None => 0
  end.

Definition pow10 (f : nat) : N := (10 ^ N.of_nat f)%N.

(** The integer [n] for which [n / 10^f - x] is closest to zero, the
    larger one on a tie, for the non-negative value [m * 2^e]. *)
Definition scaled_round (f : nat) (m : positive) (e : Z) : N :=
  match e with
  | Zneg p =>
      let d := (2 ^ Npos p)%N in
      ((2 * (Npos m * pow10 f) + d) / (2 * d))%N
  | _ => (Npos m * 2 ^ Z.to_N e * pow10 f)%N
  end.

Fixpoint zeros (k : nat) : string :=
  match k with
  | O => ""
  | S k' => "0" +:+ zeros k'
  end.

(** Left-pad with zeros up to [width] characters. *)
Definition zero_pad (width : nat) (s : string) : string :=
  zeros (width - String.length s) +:+ s.

Definition digits_fixed (f : nat) (n : N) : string :=
  match f with
  | O => pretty n
  | _ => pretty (n / pow10 f)%N +:+ "." +:+ zero_pad f (pretty (n mod pow10 f)%N)
  end.

(** [x.toFixed(f)]: the decimal expansion of the exact value of [x]
    rounded to [f] fraction digits. (For [|x| >= 1e21] JavaScript switches
    to exponent notation; the program only formats a percentage.) *)
Definition toFixed (f : nat) (x : float) : string :=
  match Prim2SF x with
  | S754_nan => "NaN"
  | S754_infinity false => "Infinity"
  | S754_infinity true => "-Infinity"
  | S754_zero _ => digits_fixed f 0
  | S754_finite s m e =>
      (if s then "-" else "") +:+ digits_fixed f (scaled_round f m e)
  end.
End Number.

(** ** The local cache ([localStorage]) *)

(** A stored value as [JSON.parse] sees it, under the signatures [Order[]]
    and [Store[]] of the helpers: text it rejects with a [SyntaxError], or
    the text [JSON.stringify] wrote for a list, which is all the program
    ever stores. Text that parses to something else is followed on raw JSON
    further down ([getLocalRaw]). *)
Inductive Item (A : Type) :=
  | Unparsable (text : string)
  | Stringified (value : list A).
Arguments Unparsable {A} text.
Arguments Stringified {A} value.

(** The two keys the program uses; [None] is a key that was never set
    ([getItem] returns [null]). *)
Record Storage := {
  DB_KEY_ORDERS : option (Item Order.t);
  DB_KEY_STORES : option (Item Store.t)
}.

Module JSON.
Definition parse {A} (data : Item A) : Js (list A) :=
  match data with
  | Unparsable _ => Throw SyntaxError
  | Stringified value => Ret value
  end.

Definition stringify {A} (value : list A) : Item A := Stringified value.
End JSON.

(** Truthiness of a stored string: only the empty string is falsy. *)
Definition truthy {A} (data : Item A) : bool :=
  match data with
  | Unparsable "" => false
  | _ => true
  end.

(** The body shared by [getLocalOrders] and [getLocalStores]:
    [try { const data = getItem(k); return data ? JSON.parse(data) : [] }
     catch { return [] }] *)
Definition getLocal {A} (item : option (Item A)) : Js (list A) :=
  try_catch
    (match item with
     | Some data => if truthy data then JSON.parse data else Ret []
     | None => Ret []
     end)
    (λ _, Ret []).

Definition getLocalOrders (ls : Storage) : Js (list Order.t) :=
  getLocal (DB_KEY_ORDERS ls).

Definition getLocalStores (ls : Storage) : Js (list Store.t) :=
  getLocal (DB_KEY_STORES ls).

(** [localStorage.setItem(DB_KEY_ORDERS, JSON.stringify(orders))] *)
Definition setLocalOrders (orders : list Order.t) (ls : Storage) : Storage :=
  {| DB_KEY_ORDERS := Some (JSON.stringify orders);
     DB_KEY_STORES := DB_KEY_STORES ls |}.

(** ** The world the program runs in *)

(** [online] tells whether axios reaches the backend; [mongoOrders] is the
    backend's Order collection; [mongoSum] is the database's [$sum]
    accumulator, which the repository calls and does not define: the total
    it returns for the amounts of a non-empty group, given in scan order;
    [clock] and [random] are the successive results of [new Date()] and of
    [Math.random().toString(36).substring(2, 15)], consumed one per call. *)
Record World := {
  online : bool;
  mongoOrders : list Order.t;
  mongoSum : list float → float;
  localStorage : Storage;
  clock : nat → Timestamp;
  ticks : nat;
  random : nat → string;
  draws : nat
}.

Definition set_mongoOrders (c : list Order.t) (w : World) : World :=
  {| online := online w; mongoOrders := c; mongoSum := mongoSum w;
     localStorage := localStorage w;
     clock := clock w; ticks := ticks w; random := random w; draws := draws w |}.

Definition set_localStorage (ls : Storage) (w : World) : World :=
  {| online := online w; mongoOrders := mongoOrders w; mongoSum := mongoSum w;
     localStorage := ls;
     clock := clock w; ticks := ticks w; random := random w; draws := draws w |}.

(** [new Date()] *)
Definition Date_now (w : World) : Timestamp * World :=
  (clock w (ticks w),
   {| online := online w; mongoOrders := mongoOrders w; mongoSum := mongoSum w;
      localStorage := localStorage w;
      clock := clock w; ticks := S (ticks w);
      random := random w; draws := draws w |}).

(** [Math.random().toString(36).substring(2, 15)] *)
Definition Math_random_id (w : World) : string * World :=
  (random w (draws w),
   {| online := online w; mongoOrders := mongoOrders w; mongoSum := mongoSum w;
      localStorage := localStorage w;
      clock := clock w; ticks := ticks w;
      random := random w; draws := S (draws w) |}).

(** [storeId ? ... : ...]: [null], [undefined] and the empty string are falsy. *)
Definition scope_of (storeId : option string) : option string :=
  match storeId with
  | Some "" => None
  | other => other
  end.

Definition has_id (id : string) (o : Order.t) : Prop := Order.id o = id.
Definition of_store (sid : string) (o : Order.t) : Prop := Order.store_id o = Some sid.
Definition has_status (s : OrderStatus) (o : Order.t) : Prop := Order.status o = s.

#[global] Instance has_id_dec id o : Decision (has_id id o).
Proof. unfold has_id. apply _. Defined.
#[global] Instance of_store_dec sid o : Decision (of_store sid o).
Proof. unfold of_store. apply _. Defined.
#[global] Instance has_status_dec s o : Decision (has_status s o).
Proof. unfold has_status. apply _. Defined.

(** ** The backend ([src/unnamed/part_000]) *)

(** What a handler sends: [res.json(data)] (status 200) or
    [res.status(code).json({ message })]. *)
Inductive Reply (A : Type) :=
  | Ok200 (data : A)
  | Status (code : nat) (message : string).
Arguments Ok200 {A} data.
Arguments Status {A} code message.

Module mongoose.
(** A Mongo query of the handlers: an optional [store_id] equality and an
    optional [status] equality. *)
Definition matches (store : option string) (st : option OrderStatus)
    (o : Order.t) : Prop :=
  (match store with Some sid => of_store sid o | None => True end) ∧
  (match st with Some s => has_status s o | None => True end).

#[global] Instance matches_dec store st o : Decision (matches store st o).
Proof. unfold matches. destruct store, st; apply _. Defined.

(** [Order.countDocuments(query)] *)
Definition countDocuments (store : option string) (st : option OrderStatus)
    (coll : list Order.t) : nat :=
  length (filter (matches store st) coll).

(** [Order.aggregate([{ $match }, { $group: { _id: null, total: { $sum:
    "$amount" } } }])]: no group when nothing matches, otherwise one group
    whose total is what the database's [$sum] makes of the amounts of the
    matching documents. *)
Definition aggregate_sum (sum : list float → float) (store : option string)
    (st : option OrderStatus) (coll : list Order.t) : list float :=
  match filter (matches store st) coll with
  | [] => []
  | docs => [sum (Order.amount <$> docs)]
  end.

(** [Order.findOne({ id })] *)
Definition findOne (id : string) (coll : list Order.t) : option (nat * Order.t) :=
  list_find (has_id id) coll.

(** An optional key of an update: written when present, left alone when
    absent. *)
Definition set_key {A} (new old : option A) : option A :=
  match new with
  | Some v => Some v
  | None => old
  end.

(** An update without operators is applied as [$set] of the keys it
    carries, and only of keys that are paths of [OrderSchema]
    ([customer_address] is not one). *)
Definition apply_set (body doc : Order.t) : Order.t :=
  Order.mk (Order.id body) (Order.amount body) (Order.description body)
    (Order.createdAt body) (Order.status body)
    (set_key (Order.pixgo_payment_id body) (Order.pixgo_payment_id doc))
    (set_key (Order.qr_code body) (Order.qr_code doc))
    (set_key (Order.qr_image_url body) (Order.qr_image_url doc))
    (set_key (Order.store_id body) (Order.store_id doc))
    (set_key (Order.store_name body) (Order.store_name doc))
    (set_key (Order.customer_name body) (Order.customer_name doc))
    (set_key (Order.customer_cpf body) (Order.customer_cpf doc))
    (set_key (Order.customer_email body) (Order.customer_email doc))
    (set_key (Order.customer_phone body) (Order.customer_phone doc))
    (Order.customer_address doc)
    (Order.updatedAt body).

(** The document an upsert inserts: the schema paths of the update. *)
Definition new_doc (body : Order.t) : Order.t :=
  Order.mk (Order.id body) (Order.amount body) (Order.description body)
    (Order.createdAt body) (Order.status body)
    (Order.pixgo_payment_id body) (Order.qr_code body) (Order.qr_image_url body)
    (Order.store_id body) (Order.store_name body)
    (Order.customer_name body) (Order.customer_cpf body)
    (Order.customer_email body) (Order.customer_phone body)
    None
    (Order.updatedAt body).

(** [Order.findOneAndUpdate({ id }, update, { new: true, upsert: true,
    setDefaultsOnInsert: true })] *)
Definition findOneAndUpdate_upsert (id : string) (update : Order.t)
    (coll : list Order.t) : Order.t * list Order.t :=
  match findOne id coll with
  | Some (i, doc) =>
      let doc' := apply_set update doc in (doc', <[i := doc']> coll)
  | None =>
      let doc' := new_doc update in (doc', (coll ++ [doc'])%list)
  end.

(** [Order.findOneAndUpdate({ id }, { status, updatedAt }, { new: true })] *)
Definition findOneAndUpdate_status (id : string) (s : OrderStatus)
    (t : Timestamp) (coll : list Order.t) : option Order.t * list Order.t :=
  match findOne id coll with
  | Some (i, doc) =>
      let doc' := Order.with_status s t doc in (Some doc', <[i := doc']> coll)
  | None => (None, coll)
  end.
End mongoose.

Module api.
(** [GET /api/orders/:id] *)
Definition get_order (id : string) (w : World) : Reply Order.t :=
  match mongoose.findOne id (mongoOrders w) with
  | Some (_, order) => Ok200 order
  | None => Status 404 "Pedido não encontrado"
  end.

(** [POST /api/orders] *)
Definition post_orders (body : Order.t) (w : World) : Reply Order.t * World :=
  let id := Order.id body in
  let '(now, w1) := Date_now w in
  let updateData := Order.with_updatedAt now body in
  let '(order, coll) :=
    mongoose.findOneAndUpdate_upsert id updateData (mongoOrders w1) in
  (Ok200 order, set_mongoOrders coll w1).

(** [PATCH /api/orders/:id/status] *)
Definition patch_status (id : string) (status : OrderStatus) (w : World)
    : Reply (option Order.t) * World :=
  let '(now, w1) := Date_now w in
  let '(order, coll) :=
    mongoose.findOneAndUpdate_status id status now (mongoOrders w1) in
  (Ok200 order, set_mongoOrders coll w1).

(** [GET /api/dashboard/metrics] *)
Definition get_metrics (storeId : option string) (w : World) : Reply Metrics :=
  let query := scope_of storeId in
  let coll := mongoOrders w in
  let totalOrders := mongoose.countDocuments query None coll in
  let pendingOrders := mongoose.countDocuments query (Some pending) coll in
  let revenueAgg :=
    mongoose.aggregate_sum (mongoSum w) query (Some completed) coll in
  let totalRevenue :=
    match revenueAgg with
    | total :: _ => total
    | [] => 0%float
    end in
  let completedCount := mongoose.countDocuments query (Some completed) coll in
  let conversionRate :=
    if decide (0 < totalOrders) then
      Number.toFixed 1
        (Number.of_nat completedCount / Number.of_nat totalOrders * 100)%float
    else "0.0" in
  Ok200 {| totalOrders := totalOrders; totalRevenue := totalRevenue;
           pendingOrders := pendingOrders; conversionRate := conversionRate |}.
End api.

(** [await axios.<verb>(url, ...)]: when the backend is reachable the handler
    runs and axios yields [response.data], or throws on a status outside 2xx;
    when it is not, axios throws and the backend is untouched. *)
Definition axios {A} (handler : World → Reply A * World) (w : World) : Js A * World :=
  if online w then
    let '(reply, w') := handler w in
    (match reply with
     | Ok200 data => Ret data
     | Status code _ => Throw (AxiosError code)
     end, w')
  else (Throw NetworkError, w).

(** ** The persistence gateway ([db] in [src/types.ts]) *)

Module db.
Local Open Scope float_scope.

Definition getOrderById (id : string) (w : World) : Js (option Order.t) :=
  match axios (λ w, (api.get_order id w, w)) w with
  | (Ret data, _) => Ret (Some data)
  | (Throw _, _) =>
      match getLocalOrders (localStorage w) with
      | Ret orders => Ret (snd <$> list_find (has_id id) orders)
      | Throw e => Throw e
      end
  end.

Definition saveOrder (order : Order.t) (w : World) : Js Order.t * World :=
  match axios (api.post_orders order) w with
  | (Ret data, w') => (Ret data, w')
  | (Throw _, w') =>
      match getLocalOrders (localStorage w') with
      | Ret orders =>
          let idx := fst <$> list_find (has_id (Order.id order)) orders in
          let '(now, w1) := Date_now w' in
          let toSave := Order.with_updatedAt now order in
          let orders' :=
            match idx with
            | Some i => <[i := toSave]> orders
            | None => (orders ++ [toSave])%list
            end in
          (Ret toSave,
           set_localStorage (setLocalOrders orders' (localStorage w1)) w1)
      | Throw e => (Throw e, w')
      end
  end.

Definition updateStatus (id : string) (status : OrderStatus) (w : World)
    : Js unit * World :=
  match axios (api.patch_status id status) w with
  | (Ret _, w') => (Ret (), w')
  | (Throw _, w') =>
      match getLocalOrders (localStorage w') with
      | Ret orders =>
          match list_find (has_id id) orders with
          | Some (i, order) =>
              let '(now, w1) := Date_now w' in
              let order' := Order.with_status status now order in
              (Ret (),
               set_localStorage
                 (setLocalOrders (<[i := order']> orders) (localStorage w1)) w1)
          | None => (Ret (), w')
          end
      | Throw e => (Throw e, w')
      end
  end.

(** The [catch] branch of [getMetrics]. *)
Definition localMetrics (storeId : option string) (ls : Storage) : Js Metrics :=
  match getLocalOrders ls with
  | Ret orders =>
      let orders :=
        match scope_of storeId with
        | Some sid => filter (of_store sid) orders
        | None => orders
        end in
      let totalOrders := length orders in
      let completedOrders := filter (has_status completed) orders in
      let totalRevenue :=
        fold_left (λ acc curr, acc + Order.amount curr) completedOrders 0 in
      let pendingOrders := length (filter (has_status pending) orders) in
      let conversionRate :=
        if decide (0 < totalOrders)%nat then
          Number.toFixed 1
            (Number.of_nat (length completedOrders) / Number.of_nat totalOrders * 100)
        else "0.0" in
      Ret {| totalOrders := totalOrders; totalRevenue := totalRevenue;
             pendingOrders := pendingOrders; conversionRate := conversionRate |}
  | Throw e => Throw e
  end.

Definition getMetrics (storeId : option string) (w : World) : Js Metrics :=
  match axios (λ w, (api.get_metrics (scope_of storeId) w, w)) w with
  | (Ret data, _) => Ret data
  | (Throw _, _) => localMetrics storeId (localStorage w)
  end.
End db.

(** ** The dashboard ([src/components/AdminDashboard.tsx]) *)

Record FeeSimulation := {
  fee : float;
  net : float;
  isValid : bool;
  message : string
}.

Definition MSG_MIN : string := "Valor mínimo por transação é R$ 10,00".
Definition MSG_MAX : string := "Valor máximo por transação é R$ 6.000,00".
Definition MSG_RANGE : string := "O valor deve estar entre R$ 10,00 e R$ 6.000,00".

(** The simulation effect from the [RULES] comment on, for a parsed value. *)
Definition feeRules (val : float) : FeeSimulation :=
  let '(isValid, message) :=
    if (val <? 10)%float then (false, MSG_MIN)
    else if (6000 <? val)%float then (false, MSG_MAX)
    else (true, "") in
  let fee :=
    if (val <? 50)%float then (val * 0.02 + 1.00)%float
    else (val * 0.02)%float in
  {| fee := fee; net := (val - fee)%float; isValid := isValid; message := message |}.

(** What the click handler leaves the user with. *)
Inductive Feedback :=
  | Alert (text : string)
  | LinkCopied (id : string).

Section AdminDashboard.
(** The browser's [parseFloat]. *)
Variable parseFloat : string → float.

(** The simulation effect: the next value of the [feeSimulation] state. *)
Definition feeSimulation (amount : string) : option FeeSimulation :=
  if decide (amount = "") then None
  else
    let val := parseFloat amount in
    if Number.isNaN val then None
    else Some (feeRules val).

(** [handleGenerateLink]. After [db.saveOrder] the handler only reads
    ([refreshData]), resets the form and copies the link. *)
Definition handleGenerateLink (amount description : string)
    (selectedStore : option Store.t) (w : World) : Feedback * World :=
  let val := parseFloat amount in
  if Number.isNaN val || (val <? 10)%float || (6000 <? val)%float then
    (Alert MSG_RANGE, w)
  else
    let '(id, w1) := Math_random_id w in
    let '(created, w2) := Date_now w1 in
    let '(updated, w3) := Date_now w2 in
    let newOrder :=
      Order.mk id val
        (if decide (description = "") then "Link Rápido" else description)
        created pending None None None
        (Store.id <$> selectedStore) (Store.name <$> selectedStore)
        None None None None None
        updated in
    let '(_, w4) := db.saveOrder newOrder w3 in
    (LinkCopied (Order.id newOrder), w4).
End AdminDashboard.

(** The financial card. *)
Definition estimatedFees (metrics : Metrics) (selectedStore : option Store.t) : float :=
  match selectedStore with
  | Some store =>
      if (0 <? totalRevenue metrics)%float then
        (totalRevenue metrics * Number.or_zero (Store.pixFeePercentage store) / 100
         + Number.of_nat (totalOrders metrics) * Number.or_zero (Store.pixFeeFixed store))%float
      else 0%float
  | None => 0%float
  end.

Definition estimatedNet (metrics : Metrics) (selectedStore : option Store.t) : float :=
  (totalRevenue metrics - estimatedFees metrics selectedStore)%float.

(** ** The metrics as the specification words them (MetricsAggregator) *)

(** An order is in scope when no store scope is given -- none at all, or
    the empty text -- or when its [store_id] is the scope. *)
Definition in_scope (storeId : option string) (o : Order.t) : bool :=
  match storeId with
  | None | Some "" => true
  | Some sid => bool_decide (Order.store_id o = Some sid)
  end.

Definition is_status (s : OrderStatus) (o : Order.t) : bool :=
  bool_decide (Order.status o = s).

Fixpoint count_where (p : Order.t → bool) (orders : list Order.t) : nat :=
  match orders with
  | [] => 0
  | o :: rest => (if p o then 1 else 0) + count_where p rest
  end.

(** The amounts of the orders satisfying [p], in list order. *)
Fixpoint amounts_where (p : Order.t → bool) (orders : list Order.t) : list float :=
  match orders with
  | [] => []
  | o :: rest =>
      if p o then Order.amount o :: amounts_where p rest else amounts_where p rest
  end.

(** Binary64 addition from 0, left to right. *)
Definition left_sum (amounts : list float) : float :=
  fold_left PrimFloat.add amounts 0%float.

(** The total of the database's group, 0 when there is no group. *)
Definition group_sum (sum : list float → float) (amounts : list float) : float :=
  match amounts with
  | [] => 0%float
  | _ => sum amounts
  end.

(** [n] is the integer nearest to ten times [m * 2^e], the larger one when
    two are equally near. *)
Definition nearest_tenths (m : positive) (e : Z) (n : N) : Prop :=
  let p := (2 ^ Z.max 0 e)%Z in
  let q := (2 ^ Z.max 0 (- e))%Z in
  ((2 * Z.of_N n - 1) * q ≤ 20 * Z.pos m * p < (2 * Z.of_N n + 1) * q)%Z.

(** [m * 2^e < 10^21], the range in which a number is printed in positional
    notation. *)
Definition below_1e21 (m : positive) (e : Z) : Prop :=
  (Z.pos m * 2 ^ Z.max 0 e < 10 ^ 21 * 2 ^ Z.max 0 (- e))%Z.

Definition decimal_digit (k : N) : ascii := ascii_of_N (48 + k).

(** [text] is the number [x] printed with exactly one digit after the
    point: the tenths nearest to [x], as integer part, point and one digit;
    a number that is no finite value is printed by its name. *)
Definition one_decimal (x : float) (text : string) : Prop :=
  match Prim2SF x with
  | S754_zero _ => text = "0.0"
  | S754_finite s m e =>
      below_1e21 m e →
      ∃ n, nearest_tenths m e n ∧
           text = (if s then "-" else "") +:+ pretty (n / 10)%N +:+ "."
                  +:+ String (decimal_digit (n mod 10)) ""
  | S754_infinity s => text = if s then "-Infinity" else "Infinity"
  | S754_nan => text = "NaN"
  end.

(** The conversion rate of [done] completed orders among [total]:
    [(done / total) * 100] in binary64, printed with one digit after the
    point, and the text 0.0 when there is no order. *)
Definition rate_text (done total : nat) (text : string) : Prop :=
  match total with
  | O => text = "0.0"
  | S _ =>
      one_decimal
        (PrimFloat.of_uint63 (Uint63.of_Z (Z.of_nat done))
         / PrimFloat.of_uint63 (Uint63.of_Z (Z.of_nat total)) * 100)%float
        text
  end.

(** [m] is the summary of the orders of [orders] in the scope [storeId],
    [revenue] being the way the amounts are added up. *)
Definition scope_summary (revenue : list float → float)
    (storeId : option string) (orders : list Order.t) (m : Metrics) : Prop :=
  totalOrders m = count_where (in_scope storeId) orders ∧
  totalRevenue m
    = revenue (amounts_where (λ o, in_scope storeId o && is_status completed o) orders) ∧
  pendingOrders m
    = count_where (λ o, in_scope storeId o && is_status pending o) orders ∧
  rate_text
    (count_where (λ o, in_scope storeId o && is_status completed o) orders)
    (count_where (in_scope storeId) orders)
    (conversionRate m).

(** The record the two paths of [db.getMetrics] build, written once:
    [revenue] is the path's way of adding up. *)
Definition summarize (revenue : list float → float) (storeId : option string)
    (orders : list Order.t) : Metrics :=
  let total := count_where (in_scope storeId) orders in
  let done := count_where (λ o, in_scope storeId o && is_status completed o) orders in
  {| totalOrders := total;
     totalRevenue :=
       revenue (amounts_where (λ o, in_scope storeId o && is_status completed o) orders);
     pendingOrders :=
       count_where (λ o, in_scope storeId o && is_status pending o) orders;
     conversionRate :=
       match total with
       | O => "0.0"
       | _ => Number.toFixed 1 (Number.of_nat done / Number.of_nat total * 100)%float
       end |}.

(** The store a call of [db] reads and writes: the backend collection when
    it is reachable, the cached list otherwise. *)
Definition cachedOrders (ls : Storage) : list Order.t :=
  match DB_KEY_ORDERS ls with
  | Some (Stringified orders) => orders
  | _ => []
  end.

Definition targetOrders (w : World) : list Order.t :=
  if online w then mongoOrders w else cachedOrders (localStorage w).

(** The way a call of [db.getMetrics] adds up the revenue: the database's
    [$sum] when the backend is reachable, [reduce] from 0 otherwise. *)
Definition revenue_of (w : World) : list float → float :=
  if online w then group_sum (mongoSum w) else left_sum.

(** ** Upsert, as a relation between the store before and after *)

(** [upserted id y l l']: [l'] is [l] with the first order whose id is [id]
    replaced by [y], or with [y] appended when [l] has no such order. *)
Inductive upserted (id : string) (y : Order.t) (l : list Order.t)
    : list Order.t → Prop :=
  | upserted_replace l1 x l2 :
      l = (l1 ++ x :: l2)%list →
      Forall (λ o, ¬ has_id id o) l1 →
      has_id id x →
      upserted id y l (l1 ++ y :: l2)%list
  | upserted_append :
      Forall (λ o, ¬ has_id id o) l →
      upserted id y l (l ++ [y])%list.

(** No two orders of the store share an id. *)
Definition ids_unique (l : list Order.t) : Prop :=
  ∀ k, (length (filter (has_id k) l) ≤ 1)%nat.

(** The document [db.saveOrder] stores and returns, read off its two
    branches: the backend sets the keys of the request on the stored
    document (or inserts them), the fallback stores the order itself; both
    stamp [updatedAt] with the time of the save. *)
Definition savedDoc (o : Order.t) (w : World) : Order.t :=
  let update := Order.with_updatedAt (clock w (ticks w)) o in
  if online w then
    match mongoose.findOne (Order.id o) (mongoOrders w) with
    | Some (_, doc) => mongoose.apply_set update doc
    | None => mongoose.new_doc update
    end
  else update.

(** ** Sample data *)

Definition sampleOrder (id : string) (amount : float) (status : OrderStatus)
    (store : option string) : Order.t :=
  Order.mk id amount "Link Rápido" "2024-05-01T10:00:00.000Z" status
    None None None store store None None None None None
    "2024-05-01T10:00:00.000Z".

Definition sampleOrders : list Order.t :=
  [ sampleOrder "a1" 100 completed (Some "s1");
    sampleOrder "b2" 20 pending None;
    sampleOrder "c3" 5000 completed (Some "s1") ].

(** A stored order that already carries a customer name. *)
Definition anaOrder : Order.t :=
  Order.mk "a1" 100 "Pedido" "2024-05-01T10:00:00.000Z" pending
    None None None None None (Some "Ana") None None None None
    "2024-05-01T10:00:00.000Z".

(** A new order that carries a delivery address. *)
Definition addressOrder : Order.t :=
  Order.mk "e5" 80 "Entrega" "2024-05-01T10:00:00.000Z" pending
    None None None None None (Some "Bia") None None None (Some "Rua A, 10")
    "2024-05-01T10:00:00.000Z".

(** A store scope that holds three orders and no completed one. *)
Definition unpaidMetrics : Metrics :=
  {| totalOrders := 3; totalRevenue := 0; pendingOrders := 3;
     conversionRate := "0.0" |}.

Definition sampleClock (n : nat) : Timestamp := "T" +:+ pretty n.
Definition sampleRandom (n : nat) : string := "k" +:+ pretty n.

(** A database accumulator that carries the rounding error of every
    addition along and adds it back at the end. *)
Definition two_sum (a b : float) : float * float :=
  let s := (a + b)%float in
  let b' := (s - a)%float in
  (s, ((a - (s - b')) + (b - b'))%float).

Definition compensatedSum (amounts : list float) : float :=
  let '(total, error) :=
    fold_left
      (λ '(total, error) x,
         let '(total', e) := two_sum total x in (total', (error + e)%float))
      amounts (0%float, 0%float) in
  (total + error)%float.

Definition sampleWorldWith (sum : list float → float) (is_online : bool)
    (coll : list Order.t) (cache : option (Item Order.t)) : World :=
  {| online := is_online; mongoOrders := coll; mongoSum := sum;
     localStorage := {| DB_KEY_ORDERS := cache; DB_KEY_STORES := None |};
     clock := sampleClock; ticks := 0; random := sampleRandom; draws := 0 |}.

Definition sampleWorld (is_online : bool) (coll : list Order.t)
    (cache : option (Item Order.t)) : World :=
  sampleWorldWith compensatedSum is_online coll cache.

(** Three paid orders whose amounts are no binary fractions. *)
Definition centsOrders : list Order.t :=
  [ sampleOrder "d1" 10.1 completed None;
    sampleOrder "d2" 10.2 completed None;
    sampleOrder "d3" 10.3 completed None ].

Definition sampleStore : Store.t :=
  Store.mk "s1" "Loja Um" None None (Some 0.99%float) (Some 0.5%float)
    "2024-04-30T08:00:00.000Z".

(** A stand-in for [parseFloat] on the few texts the examples type in. *)
Definition sampleParse (s : string) : float :=
  if decide (s = "25") then 25%float
  else if decide (s = "100") then 100%float
  else if decide (s = "9.99") then 9.99%float
  else if decide (s = "6000.01") then 6000.01%float
  else PrimFloat.nan.

(** ** The link form's submit button *)

(** [disabled={feeSimulation ? !feeSimulation.isValid : true}] *)
Definition submitDisabled (sim : option FeeSimulation) : bool :=
  match sim with
  | Some s => negb (isValid s)
  | None => true
  end.

(** ** Looking at the two stores *)

(** [orders.find(o => o.id === id)], as [Order.findOne({ id })]: the first
    order carrying the id. *)
Definition find_order (id : string) (l : list Order.t) : option Order.t :=
  snd <$> list_find (has_id id) l.

(** The store a call of [db] does not write: the cache while the backend is
    reachable, the backend collection otherwise. *)
Definition otherOrders (w : World) : list Order.t :=
  if online w then cachedOrders (localStorage w) else mongoOrders w.

(** [y] has every key of [x] other than status and updatedAt, with the
    value [x] has. *)
Definition same_but_status_and_time (x y : Order.t) : Prop :=
  Order.id y = Order.id x ∧
  Order.amount y = Order.amount x ∧
  Order.description y = Order.description x ∧
  Order.createdAt y = Order.createdAt x ∧
  Order.pixgo_payment_id y = Order.pixgo_payment_id x ∧
  Order.qr_code y = Order.qr_code x ∧
  Order.qr_image_url y = Order.qr_image_url x ∧
  Order.store_id y = Order.store_id x ∧
  Order.store_name y = Order.store_name x ∧
  Order.customer_name y = Order.customer_name x ∧
  Order.customer_cpf y = Order.customer_cpf x ∧
  Order.customer_email y = Order.customer_email x ∧
  Order.customer_phone y = Order.customer_phone x ∧
  Order.customer_address y = Order.customer_address x.

(** ** Listing orders ([db.getAllOrders], [GET /api/orders]) *)

(** [array.sort(compare)], driven by the sign of [compare(a, b)]: [Lt] for a
    negative result ([a] first), [Gt] for a positive one ([b] first), [Eq]
    for zero and for [NaN]. The sort is stable, which fixes the result
    whenever the comparator is a consistent ordering; otherwise the order
    is left to the engine and this is one admissible outcome. *)
Fixpoint sort_insert {A} (compare : A → A → comparison) (a : A) (l : list A)
    : list A :=
  match l with
  | [] => [a]
  | b :: rest =>
      match compare a b with
      | Gt => b :: sort_insert compare a rest
      | _ => a :: l
      end
  end.

Definition Array_sort {A} (compare : A → A → comparison) (l : list A) : list A :=
  foldr (sort_insert compare) [] l.

Section Listing.
(** [new Date(text).getTime()]: the milliseconds since the epoch, [None]
    standing for the [NaN] of a text that is not a date. *)
Variable getTime : Timestamp → option Z.

(** [(a, b) => new Date(b.createdAt).getTime() - new Date(a.createdAt).getTime()]:
    time values are integers of magnitude at most 8.64e15, so the sign of
    the binary64 difference is the sign of the exact one. *)
Definition byNewest (a b : Order.t) : comparison :=
  match getTime (Order.createdAt b), getTime (Order.createdAt a) with
  | Some tb, Some ta => (tb ?= ta)%Z
  | _, _ => Eq
  end.

(** [Order.find(query).sort({ createdAt: -1 })]; the order among equal
    dates, which the database leaves open, is taken to be the scan order. *)
Definition find_sorted (store : option string) (coll : list Order.t) : list Order.t :=
  Array_sort byNewest (filter (mongoose.matches store None) coll).

(** [GET /api/orders] *)
Definition api_get_orders (storeId : option string) (w : World)
    : Reply (list Order.t) :=
  Ok200 (find_sorted (scope_of storeId) (mongoOrders w)).

(** The [catch] branch of [db.getAllOrders]. *)
Definition db_localAllOrders (storeId : option string) (ls : Storage)
    : Js (list Order.t) :=
  match getLocalOrders ls with
  | Ret orders =>
      let orders := Array_sort byNewest orders in
      Ret (match scope_of storeId with
           | Some sid => filter (of_store sid) orders
           | None => orders
           end)
  | Throw e => Throw e
  end.

(** [db.getAllOrders] *)
Definition db_getAllOrders (storeId : option string) (w : World)
    : Js (list Order.t) :=
  match axios (λ w, (api_get_orders (scope_of storeId) w, w)) w with
  | (Ret data, _) => Ret data
  | (Throw _, _) => db_localAllOrders storeId (localStorage w)
  end.

(** [a] was created no earlier than [b], both dates being readable. *)
Definition not_older (a b : Order.t) : Prop :=
  ∃ ta tb, getTime (Order.createdAt a) = Some ta
           ∧ getTime (Order.createdAt b) = Some tb ∧ (tb ≤ ta)%Z.
End Listing.

(** Orders created at three different times, stored out of order. *)
Definition datedOrder (id : string) (created : Timestamp) (store : option string)
    : Order.t :=
  Order.mk id 100 "Link Rápido" created pending
    None None None store store None None None None None created.

Definition datedOrders : list Order.t :=
  [ datedOrder "m1" "T1" (Some "s1");
    datedOrder "m0" "T0" None;
    datedOrder "m2" "T2" (Some "s1");
    datedOrder "n0" "T0" (Some "s1") ].

(** Dates as the number written in the text, for the examples. *)
Definition sampleTime (t : Timestamp) : option Z :=
  if decide (t = "T0") then Some 0%Z
  else if decide (t = "T1") then Some 1%Z
  else if decide (t = "T2") then Some 2%Z
  else if decide (t = "2024-05-01T10:00:00.000Z") then Some 1714557600000%Z
  else None.

(** ** Stores ([db.getStores] ... [db.updateStore], [/api/stores]) *)

(** The world together with the backend's Store collection. *)
Record Site := {
  world : World;
  mongoStores : list Store.t
}.

Definition store_has_id (id : string) (s : Store.t) : Prop := Store.id s = id.

#[global] Instance store_has_id_dec id s : Decision (store_has_id id s).
Proof. unfold store_has_id. apply _. Defined.

(** [stores.find(s => s.id === id)], as [Store.findOne({ id })]. *)
Definition find_store (id : string) (l : list Store.t) : option Store.t :=
  snd <$> list_find (store_has_id id) l.

Definition cachedStores (ls : Storage) : list Store.t :=
  match DB_KEY_STORES ls with
  | Some (Stringified stores) => stores
  | _ => []
  end.

(** [localStorage.setItem(DB_KEY_STORES, JSON.stringify(stores))] *)
Definition setLocalStores (stores : list Store.t) (s : Site) : Site :=
  {| world :=
       set_localStorage
         {| DB_KEY_ORDERS := DB_KEY_ORDERS (localStorage (world s));
            DB_KEY_STORES := Some (JSON.stringify stores) |}
         (world s);
     mongoStores := mongoStores s |}.

(** The document [new Store(body)] builds: the schema defaults fill the two
    fee paths when the body leaves them out. *)
Definition store_doc (body : Store.t) : Store.t :=
  Store.mk (Store.id body) (Store.name body) (Store.description body)
    (Store.apiKey body)
    (Some (default 0%float (Store.pixFeePercentage body)))
    (Some (default 0%float (Store.pixFeeFixed body)))
    (Store.createdAt body).

(** An update without operators, applied as [$set] of the keys it carries. *)
Definition store_apply_set (body doc : Store.t) : Store.t :=
  Store.mk (Store.id body) (Store.name body)
    (mongoose.set_key (Store.description body) (Store.description doc))
    (mongoose.set_key (Store.apiKey body) (Store.apiKey doc))
    (mongoose.set_key (Store.pixFeePercentage body) (Store.pixFeePercentage doc))
    (mongoose.set_key (Store.pixFeeFixed body) (Store.pixFeeFixed doc))
    (Store.createdAt body).

(** [GET /api/stores/:id] *)
Definition api_get_store (id : string) (coll : list Store.t) : Reply Store.t :=
  match find_store id coll with
  | Some store => Ok200 store
  | None => Status 404 "Store not found"
  end.

(** [POST /api/stores]: [new Store(req.body).save()] validates the two
    required strings (an empty string does not pass), then inserts under
    the unique index on [id]; either failure is answered with status 500
    (the text of [err.message] is not reproduced). *)
Definition api_post_stores (body : Store.t) (coll : list Store.t)
    : Reply Store.t * list Store.t :=
  if decide (Store.id body = "" ∨ Store.name body = "") then
    (Status 500 "ValidationError", coll)
  else if decide (is_Some (find_store (Store.id body) coll)) then
    (Status 500 "E11000 duplicate key error", coll)
  else
    let savedStore := store_doc body in
    (Ok200 savedStore, (coll ++ [savedStore])%list).

(** [PUT /api/stores/:id]: [Store.findOneAndUpdate({ id }, req.body,
    { new: true })]; moving the document onto an id another document holds
    breaks the unique index and is answered with status 500. *)
Definition api_put_store (id : string) (body : Store.t) (coll : list Store.t)
    : Reply (option Store.t) * list Store.t :=
  match list_find (store_has_id id) coll with
  | Some (i, doc) =>
      if decide (Store.id body ≠ id ∧ is_Some (find_store (Store.id body) coll)) then
        (Status 500 "E11000 duplicate key error", coll)
      else
        let updatedStore := store_apply_set body doc in
        (Ok200 (Some updatedStore), <[i := updatedStore]> coll)
  | None => (Ok200 None, coll)
  end.

(** [await axios.<verb>(url, ...)] against the Store routes. *)
Definition axios_stores {A} (handler : list Store.t → Reply A * list Store.t)
    (s : Site) : Js A * Site :=
  if online (world s) then
    let '(reply, coll) := handler (mongoStores s) in
    (match reply with
     | Ok200 data => Ret data
     | Status code _ => Throw (AxiosError code)
     end, {| world := world s; mongoStores := coll |})
  else (Throw NetworkError, s).

(** [db.getStoreById] *)
Definition db_getStoreById (id : string) (s : Site) : Js (option Store.t) :=
  match axios_stores (λ coll, (api_get_store id coll, coll)) s with
  | (Ret data, _) => Ret (Some data)
  | (Throw _, _) =>
      match getLocalStores (localStorage (world s)) with
      | Ret stores => Ret (find_store id stores)
      | Throw e => Throw e
      end
  end.

(** [db.createStore] *)
Definition db_createStore (store : Store.t) (s : Site) : Js (option Store.t) * Site :=
  match axios_stores (api_post_stores store) s with
  | (Ret data, s') => (Ret (Some data), s')
  | (Throw _, s') =>
      match getLocalStores (localStorage (world s')) with
      | Ret stores =>
          (Ret (Some store), setLocalStores (stores ++ [store])%list s')
      | Throw e => (Throw e, s')
      end
  end.

(** [db.updateStore] *)
Definition db_updateStore (store : Store.t) (s : Site) : Js (option Store.t) * Site :=
  match axios_stores (api_put_store (Store.id store) store) s with
  | (Ret data, s') => (Ret data, s')
  | (Throw _, s') =>
      match getLocalStores (localStorage (world s')) with
      | Ret stores =>
          match fst <$> list_find (store_has_id (Store.id store)) stores with
          | Some idx => (Ret (Some store), setLocalStores (<[idx := store]> stores) s')
          | None => (Ret None, s')
          end
      | Throw e => (Throw e, s')
      end
  end.

(** The store collection a call of [db] works on. *)
Definition targetStores (s : Site) : list Store.t :=
  if online (world s) then mongoStores s else cachedStores (localStorage (world s)).

(** ** The store settings form *)

Record StoreSettingsForm := {
  form_apiKey : string;
  feePercent : float;
  feeFixed : float
}.

(** The effect that fills the form when a store is selected:
    [apiKey || ''], [pixFeePercentage || 0], [pixFeeFixed || 0]. *)
Definition syncStoreForm (selectedStore : Store.t) : StoreSettingsForm :=
  {| form_apiKey := default "" (Store.apiKey selectedStore);
     feePercent := Number.or_zero (Store.pixFeePercentage selectedStore);
     feeFixed := Number.or_zero (Store.pixFeeFixed selectedStore) |}.

(** The record [handleSaveStoreSettings] builds and sends:
    [{ ...selectedStore, apiKey, pixFeePercentage: Number(feePercent),
       pixFeeFixed: Number(feeFixed) }]. *)
Definition updatedStore (selectedStore : Store.t) (form : StoreSettingsForm) : Store.t :=
  Store.mk (Store.id selectedStore) (Store.name selectedStore)
    (Store.description selectedStore)
    (Some (form_apiKey form))
    (Some (feePercent form))
    (Some (feeFixed form))
    (Store.createdAt selectedStore).

(** [handleSaveStoreSettings]: the new [selectedStore] state and the site. *)
Definition handleSaveStoreSettings (selectedStore : option Store.t)
    (form : StoreSettingsForm) (s : Site) : option Store.t * Site :=
  match selectedStore with
  | None => (None, s)
  | Some store =>
      let updated := updatedStore store form in
      let '(_, s') := db_updateStore updated s in
      (Some updated, s')
  end.

Definition sampleSite (is_online : bool) (coll cache : list Store.t) : Site :=
  {| world :=
       {| online := is_online; mongoOrders := []; mongoSum := compensatedSum;
          localStorage := {| DB_KEY_ORDERS := None;
                             DB_KEY_STORES := Some (Stringified cache) |};
          clock := sampleClock; ticks := 0; random := sampleRandom; draws := 0 |};
     mongoStores := coll |}.

(** A stored store with every optional key set. *)
Definition fullStore : Store.t :=
  Store.mk "s1" "Loja Um" (Some "Matriz") (Some "pk_old")
    (Some 0.99%float) (Some 0.5%float) "2024-04-30T08:00:00.000Z".

(** A store without fee settings, and a renamed store under the same id. *)
Definition plainStore : Store.t :=
  Store.mk "s2" "Loja Dois" None None None None "2024-05-02T09:00:00.000Z".

Definition renamedStore : Store.t :=
  Store.mk "s1" "Loja Nova" None None None None "2024-05-03T09:00:00.000Z".

(** ** The checkout link ([handleCopyLink]) *)

(** [text.split('#')[0]]: the text up to the first [#]. *)
Fixpoint before_hash (text : string) : string :=
  match text with
  | EmptyString => EmptyString
  | String c rest =>
      if decide (c = "#"%char) then EmptyString else String c (before_hash rest)
  end.

(** The link [handleCopyLink] writes to the clipboard, for the page address
    [href]: [`${baseUrl}#/checkout/${id}`]. *)
Definition checkoutLink (href id : string) : string :=
  before_hash href +:+ "#/checkout/" +:+ id.

(** The fragment of an address: what follows its first [#], if any. *)
Fixpoint fragment (url : string) : option string :=
  match url with
  | EmptyString => None
  | String c rest => if decide (c = "#"%char) then Some rest else fragment rest
  end.

(** ** The cache as raw JSON *)

(** The typed cache above follows the signatures [Order[]] and [Store[]]
    and holds everything the program itself stores. Text of any other
    origin may parse to any JSON value; what follows traces
    [getLocalOrders] and the fallback of [db.getOrderById] on such values. *)
Inductive Json :=
  | JNull
  | JBool (b : bool)
  | JNumber (x : float)
  | JString (s : string)
  | JArray (items : list Json)
  | JObject (fields : list (string * Json)).

(** A stored text as [JSON.parse] sees it: rejected, or parsed to a value. *)
Inductive RawItem :=
  | RawUnparsable (text : string)
  | RawJson (value : Json).

Definition raw_parse (data : RawItem) : Js Json :=
  match data with
  | RawUnparsable _ => Throw SyntaxError
  | RawJson value => Ret value
  end.

Definition raw_truthy (data : RawItem) : bool :=
  match data with
  | RawUnparsable "" => false
  | _ => true
  end.

(** [getLocalOrders] and [getLocalStores] without the type assertion:
    [try { const data = getItem(k); return data ? JSON.parse(data) : [] }
     catch { return [] }] *)
Definition getLocalRaw (item : option RawItem) : Js Json :=
  try_catch
    (match item with
     | Some data => if raw_truthy data then raw_parse data else Ret (JArray [])
     | None => Ret (JArray [])
     end)
    (λ _, Ret (JArray [])).

(** The value an object holds under a key: the last one when the text
    repeats the key, [undefined] when it has none. *)
Fixpoint property (key : string) (fields : list (string * Json)) : option Json :=
  match fields with
  | [] => None
  | (k, v) :: rest =>
      match property key rest with
      | Some later => Some later
      | None => if decide (k = key) then Some v else None
      end
  end.

(** [o.id]: [null] has no properties to read; an object gives the value of
    its key; every other value gives [undefined]. *)
Definition read_id (o : Json) : Js (option Json) :=
  match o with
  | JNull => Throw TypeError
  | JObject fields => Ret (property "id" fields)
  | _ => Ret None
  end.

(** [items.find(o => o.id === id)] *)
Fixpoint raw_find (id : string) (items : list Json) : Js (option Json) :=
  match items with
  | [] => Ret None
  | o :: rest =>
      match read_id o with
      | Throw e => Throw e
      | Ret (Some (JString s)) =>
          if decide (s = id) then Ret (Some o) else raw_find id rest
      | Ret _ => raw_find id rest
      end
  end.

(** The [catch] branch of [db.getOrderById]:
    [const orders = getLocalOrders(); return orders.find(o => o.id === id)].
    Only an array has a [find] to call. *)
Definition raw_getOrderById_fallback (id : string) (item : option RawItem)
    : Js (option Json) :=
  match getLocalRaw item with
  | Ret (JArray items) => raw_find id items
  | Ret _ => Throw TypeError
  | Throw e => Throw e
  end.

(** What [JSON.stringify] writes for an order, parsed again: an object
    with the keys the order has. *)
Definition status_text (s : OrderStatus) : string :=
  match s with
  | pending => "pending"
  | completed => "completed"
  | expired => "expired"
  | cancelled => "cancelled"
  | refunded => "refunded"
  end.

Definition optional_key (key : string) (v : option string) : list (string * Json) :=
  match v with
  | Some s => [(key, JString s)]
  | None => []
  end.

Definition order_json (o : Order.t) : Json :=
  JObject
    ([ ("id", JString (Order.id o));
       ("amount", JNumber (Order.amount o));
       ("description", JString (Order.description o));
       ("createdAt", JString (Order.createdAt o));
       ("status", JString (status_text (Order.status o))) ]
     ++ optional_key "pixgo_payment_id" (Order.pixgo_payment_id o)
     ++ optional_key "qr_code" (Order.qr_code o)
     ++ optional_key "qr_image_url" (Order.qr_image_url o)
     ++ optional_key "store_id" (Order.store_id o)
     ++ optional_key "store_name" (Order.store_name o)
     ++ optional_key "customer_name" (Order.customer_name o)
     ++ optional_key "customer_cpf" (Order.customer_cpf o)
     ++ optional_key "customer_email" (Order.customer_email o)
     ++ optional_key "customer_phone" (Order.customer_phone o)
     ++ optional_key "customer_address" (Order.customer_address o)
     ++ [ ("updatedAt", JString (Order.updatedAt o)) ])%list.

(** The typed cache item as raw JSON. *)
Definition item_json (item : Item Order.t) : RawItem :=
  match item with
  | Unparsable text => RawUnparsable text
  | Stringified orders => RawJson (JArray (order_json <$> orders))
  end.

(** * Properties *)

(** ** Binary64 comparisons against the fee thresholds *)

Lemma Prim2SF_6000 : Prim2SF 6000 = S754_finite false 6597069766656000 (-40).
Proof. reflexivity. Qed.

Lemma Prim2SF_10 : Prim2SF 10 = S754_finite false 5629499534213120 (-49).
Proof. reflexivity. Qed.

(** A value above the maximum is not below the minimum. *)
Lemma above_max_not_below_min (v : float) :
  (6000 <? v)%float = true → (v <? 10)%float = false.
Proof.
  rewrite !ltb_spec, Prim2SF_6000, Prim2SF_10.
  destruct (Prim2SF v) as [[]|[]| |[] m e]; try done.
  unfold SFltb, SFcompare.
  destruct (Z.compare_spec (-40) e) as [<-|Hlt|Hgt].
  - done.
  - intros _. destruct (Z.compare_spec e (-49)); try lia; done.
  - done.
Qed.

Lemma MSG_MIN_MAX : MSG_MIN ≠ MSG_MAX.
Proof. discriminate. Qed.

(** ** Fee simulation *)

(** C2: for every text that parses to a number, the simulation yields
    fee = val*0.02 + 1.00 when val < 50 and val*0.02 otherwise, and
    net = val - fee; no condition on the 10..6000 range is involved, so the
    figures are produced for invalid amounts as well. *)
Theorem fee_and_net_for_every_number (parseFloat : string → float) (amount : string) :
  amount ≠ "" →
  Number.isNaN (parseFloat amount) = false →
  ∃ sim,
    feeSimulation parseFloat amount = Some sim ∧
    fee sim = (if (parseFloat amount <? 50)%float
               then (parseFloat amount * 0.02 + 1.00)%float
               else (parseFloat amount * 0.02)%float) ∧
    net sim = (parseFloat amount - fee sim)%float.
Proof.
  intros Hne Hnum. unfold feeSimulation.
  destruct (decide (amount = "")) as [?|_]; [done|].
  rewrite Hnum. eexists. split; [reflexivity|].
  unfold feeRules.
  destruct (parseFloat amount <? 10)%float, (6000 <? parseFloat amount)%float;
    simpl; split; reflexivity.
Qed.

(** The figures at an amount below the minimum: still computed. *)
Lemma fee_and_net_for_every_number_witness :
  ∃ sim,
    feeSimulation sampleParse "9.99" = Some sim ∧
    fee sim = (if (sampleParse "9.99" <? 50)%float
               then (sampleParse "9.99" * 0.02 + 1.00)%float
               else (sampleParse "9.99" * 0.02)%float) ∧
    net sim = (sampleParse "9.99" - fee sim)%float.
Proof.
  apply (fee_and_net_for_every_number sampleParse "9.99"); [discriminate | reflexivity].
Defined.

(** C3: the rules flag an amount invalid with the minimum message exactly
    when it is below 10, invalid with the maximum message exactly when it
    is above 6000, and valid otherwise; 9.99 and 6000.01 are invalid, 10 and
    6000 are valid. *)
Theorem validity_thresholds (val : float) :
  (isValid (feeRules val) = false ∧ message (feeRules val) = MSG_MIN
     ↔ (val <? 10)%float = true) ∧
  (isValid (feeRules val) = false ∧ message (feeRules val) = MSG_MAX
     ↔ (6000 <? val)%float = true) ∧
  (isValid (feeRules val) = true
     ↔ (val <? 10)%float = false ∧ (6000 <? val)%float = false) ∧
  isValid (feeRules 9.99) = false ∧
  isValid (feeRules 10) = true ∧
  isValid (feeRules 6000) = true ∧
  isValid (feeRules 6000.01) = false.
Proof.
  pose proof (above_max_not_below_min val) as Hexcl.
  pose proof MSG_MIN_MAX as Hmsg.
  unfold feeRules.
  destruct (val <? 10)%float eqn:Hmin, (6000 <? val)%float eqn:Hmax; simpl;
    try (specialize (Hexcl eq_refl); discriminate Hexcl);
    repeat split; try done; try (intros [? ?]; done); try (intros [_ ?]; congruence).
Qed.

(** ** Local cache reads *)

Lemma getLocal_Ret {A} (item : option (Item A)) :
  getLocal item =
  Ret (match item with Some (Stringified value) => value | _ => [] end).
Proof.
  unfold getLocal. destruct item as [[text|value]|]; simpl; try reflexivity.
  destruct text; reflexivity.
Qed.

Lemma getLocalOrders_Ret (ls : Storage) : getLocalOrders ls = Ret (cachedOrders ls).
Proof. unfold getLocalOrders, cachedOrders. apply getLocal_Ret. Qed.

Lemma Ret_not_rejected {A} (r : Js A) (a : A) : r = Ret a → ¬ rejected r.
Proof. intros -> [e He]. discriminate He. Qed.

(** ** Filters against single-pass counts and sums *)

Section Counting.
Context (P : Order.t → Prop) `{!∀ o, Decision (P o)} (p : Order.t → bool).
Hypothesis p_reflects : ∀ o, p o = true ↔ P o.

Lemma length_filter_count (l : list Order.t) :
  length (filter P l) = count_where p l.
Proof using p_reflects.
  induction l as [|o l IH]; [reflexivity|].
  rewrite filter_cons. simpl. specialize (p_reflects o).
  destruct (decide (P o)) as [HP|HP], (p o) eqn:Hp; simpl; try lia.
  - apply p_reflects in HP. discriminate HP.
  - destruct HP. by apply p_reflects.
Qed.

Lemma amounts_filter (l : list Order.t) :
  Order.amount <$> filter P l = amounts_where p l.
Proof using p_reflects.
  induction l as [|o l IH]; [reflexivity|].
  rewrite filter_cons. simpl. specialize (p_reflects o).
  destruct (decide (P o)) as [HP|HP], (p o) eqn:Hp; rewrite ?fmap_cons, ?IH; try done.
  - apply p_reflects in HP. discriminate HP.
  - destruct HP. by apply p_reflects.
Qed.
End Counting.

(** [reduce((acc, curr) => acc + curr.amount, 0)] adds the amounts from 0,
    left to right. *)
Lemma reduce_amounts (l : list Order.t) (acc : float) :
  fold_left (λ a o, (a + Order.amount o)%float) l acc
  = fold_left PrimFloat.add (Order.amount <$> l) acc.
Proof. revert acc. induction l as [|o l IH]; intros acc; simpl; [done | apply IH]. Qed.

Lemma scope_of_idemp (storeId : option string) :
  scope_of (scope_of storeId) = scope_of storeId.
Proof. destruct storeId as [[|c s]|]; reflexivity. Qed.

(** The scope test of the specification is the one the code derives from
    the truthiness of [storeId]. *)
Lemma in_scope_scope_of (storeId : option string) (o : Order.t) :
  in_scope storeId o
  = match scope_of storeId with
    | Some sid => bool_decide (Order.store_id o = Some sid)
    | None => true
    end.
Proof. by destruct storeId as [[|c s]|]. Qed.

Lemma matches_reflect (storeId : option string) (s : OrderStatus) (o : Order.t) :
  in_scope storeId o && is_status s o = true
  ↔ mongoose.matches (scope_of storeId) (Some s) o.
Proof.
  rewrite in_scope_scope_of.
  unfold is_status, mongoose.matches, of_store, has_status.
  rewrite andb_true_iff. destruct (scope_of storeId);
    rewrite ?bool_decide_eq_true; tauto.
Qed.

Lemma matches_scope_reflect (storeId : option string) (o : Order.t) :
  in_scope storeId o = true ↔ mongoose.matches (scope_of storeId) None o.
Proof.
  rewrite in_scope_scope_of. unfold mongoose.matches, of_store.
  destruct (scope_of storeId); rewrite ?bool_decide_eq_true; tauto.
Qed.

Lemma local_scope_filter (storeId : option string) (l : list Order.t) :
  match scope_of storeId with
  | Some sid => filter (of_store sid) l
  | None => l
  end = filter (mongoose.matches (scope_of storeId) None) l.
Proof.
  destruct (scope_of storeId) as [sid|].
  - apply list_filter_iff. intros o. unfold mongoose.matches. tauto.
  - induction l as [|o l IH]; [reflexivity|].
    rewrite filter_cons_True; [by f_equal | by unfold mongoose.matches].
Qed.

Lemma status_scope_filter (storeId : option string) (s : OrderStatus)
    (l : list Order.t) :
  filter (has_status s) (filter (mongoose.matches (scope_of storeId) None) l)
  = filter (mongoose.matches (scope_of storeId) (Some s)) l.
Proof.
  induction l as [|o l IH]; [reflexivity|].
  rewrite (filter_cons (mongoose.matches _ None)), (filter_cons (mongoose.matches _ (Some s))).
  destruct (decide (mongoose.matches (scope_of storeId) None o)) as [Hin|Hout].
  - rewrite filter_cons.
    destruct (decide (has_status s o)) as [Hs|Hs],
             (decide (mongoose.matches (scope_of storeId) (Some s) o)) as [Hm|Hm];
      try (by f_equal); exfalso.
    + apply Hm. destruct Hin. by split.
    + apply Hs. by destruct Hm.
  - destruct (decide (mongoose.matches (scope_of storeId) (Some s) o)) as [Hm|Hm];
      [|done].
    exfalso. apply Hout. destruct Hm. by split.
Qed.

Lemma aggregate_total (sum : list float → float) (storeId : option string)
    (coll : list Order.t) :
  match mongoose.aggregate_sum sum (scope_of storeId) (Some completed) coll with
  | total :: _ => total
  | [] => 0%float
  end
  = group_sum sum
      (Order.amount
         <$> filter (mongoose.matches (scope_of storeId) (Some completed)) coll).
Proof.
  unfold mongoose.aggregate_sum.
  by destruct (filter (mongoose.matches (scope_of storeId) (Some completed)) coll).
Qed.

Lemma api_get_metrics_summarize (storeId : option string) (w : World) :
  api.get_metrics storeId w
  = Ok200 (summarize (group_sum (mongoSum w)) storeId (mongoOrders w)).
Proof.
  unfold api.get_metrics, summarize. cbv zeta.
  rewrite aggregate_total.
  unfold mongoose.countDocuments.
  rewrite (length_filter_count _ (in_scope storeId)) by apply matches_scope_reflect.
  rewrite !(length_filter_count _ (λ o, in_scope storeId o && is_status _ o))
    by (intros o; apply matches_reflect).
  rewrite (amounts_filter _ (λ o, in_scope storeId o && is_status completed o))
    by (intros o; apply matches_reflect).
  destruct (count_where (in_scope storeId) (mongoOrders w)) eqn:Htotal.
  - destruct (decide (0 < 0)); [lia | reflexivity].
  - destruct (decide (0 < S n)); [reflexivity | lia].
Qed.

Lemma localMetrics_summarize (storeId : option string) (ls : Storage) :
  db.localMetrics storeId ls = Ret (summarize left_sum storeId (cachedOrders ls)).
Proof.
  unfold db.localMetrics, summarize. rewrite getLocalOrders_Ret. cbv zeta.
  rewrite local_scope_filter, !status_scope_filter, reduce_amounts.
  rewrite (length_filter_count _ (in_scope storeId)) by apply matches_scope_reflect.
  rewrite !(length_filter_count _ (λ o, in_scope storeId o && is_status _ o))
    by (intros o; apply matches_reflect).
  rewrite (amounts_filter _ (λ o, in_scope storeId o && is_status completed o))
    by (intros o; apply matches_reflect).
  destruct (count_where (in_scope storeId) (cachedOrders ls)) eqn:Htotal.
  - destruct (decide (0 < 0)); [lia | reflexivity].
  - destruct (decide (0 < S n)); [reflexivity | lia].
Qed.

Lemma summarize_scope_of (revenue : list float → float) (storeId : option string)
    (orders : list Order.t) :
  summarize revenue (scope_of storeId) orders = summarize revenue storeId orders.
Proof. by destruct storeId as [[|c s]|]. Qed.

Lemma getMetrics_summarize (storeId : option string) (w : World) :
  db.getMetrics storeId w = Ret (summarize (revenue_of w) storeId (targetOrders w)).
Proof.
  unfold db.getMetrics, axios, targetOrders, revenue_of. destruct (online w).
  - by rewrite api_get_metrics_summarize, summarize_scope_of.
  - apply localMetrics_summarize.
Qed.

(** ** One digit after the point *)

Lemma pretty_decimal_digit (k : N) :
  (k < 10)%N → pretty k = String (decimal_digit k) "".
Proof.
  intros Hk.
  assert (k = 0 ∨ k = 1 ∨ k = 2 ∨ k = 3 ∨ k = 4 ∨ k = 5 ∨ k = 6 ∨ k = 7
          ∨ k = 8 ∨ k = 9)%N as Hcases by lia.
  repeat destruct Hcases as [->|Hcases]; try subst k; reflexivity.
Qed.

(** The rounding of [toFixed(1)] picks the nearest tenths. *)
Lemma scaled_round_nearest (m : positive) (e : Z) :
  nearest_tenths m e (Number.scaled_round 1 m e).
Proof.
  unfold nearest_tenths, Number.scaled_round.
  change (Number.pow10 1) with 10%N.
  destruct e as [|p|p]; cbv zeta.
  - change (Z.max 0 0) with 0%Z. change (Z.max 0 (- 0)) with 0%Z.
    change (Z.to_N 0) with 0%N. rewrite N.pow_0_r, Z.pow_0_r, !N2Z.inj_mul.
    change (Z.of_N (N.pos m)) with (Z.pos m). lia.
  - rewrite (Z.max_r 0 (Z.pos p)) by lia. rewrite (Z.max_l 0 (- Z.pos p)) by lia.
    rewrite Z.pow_0_r, !N2Z.inj_mul, N2Z.inj_pow.
    change (Z.of_N (Z.to_N (Z.pos p))) with (Z.pos p).
    change (Z.of_N 2) with 2%Z. change (Z.of_N 10) with 10%Z.
    change (Z.of_N (N.pos m)) with (Z.pos m).
    set (x := (Z.pos m * 2 ^ Z.pos p)%Z). lia.
  - rewrite (Z.max_l 0 (Z.neg p)) by lia. rewrite (Z.max_r 0 (- Z.neg p)) by lia.
    change (- Z.neg p)%Z with (Z.pos p).
    rewrite Z.pow_0_r, N2Z.inj_div, N2Z.inj_add, !N2Z.inj_mul, N2Z.inj_pow.
    change (Z.of_N (N.pos p)) with (Z.pos p).
    change (Z.of_N 2) with 2%Z. change (Z.of_N 10) with 10%Z.
    change (Z.of_N (N.pos m)) with (Z.pos m).
    assert (0 < 2 ^ Z.pos p)%Z as Hd by (apply Z.pow_pos_nonneg; lia).
    set (d := (2 ^ Z.pos p)%Z) in *.
    set (a := (2 * (Z.pos m * 10) + d)%Z).
    pose proof (Z.div_mod a (2 * d)) as Hdiv.
    pose proof (Z.mod_pos_bound a (2 * d)) as Hmod.
    nia.
Qed.

(** [toFixed(1)] prints a number with one digit after the point. *)
Lemma toFixed_one_decimal (x : float) : one_decimal x (Number.toFixed 1 x).
Proof.
  unfold one_decimal, Number.toFixed.
  destruct (Prim2SF x) as [s|s| |s m e]; try reflexivity.
  intros _. exists (Number.scaled_round 1 m e).
  split; [apply scaled_round_nearest|].
  unfold Number.digits_fixed. change (Number.pow10 1) with 10%N.
  rewrite (pretty_decimal_digit (Number.scaled_round 1 m e mod 10))
    by (apply N.mod_lt; discriminate).
  reflexivity.
Qed.

Lemma summarize_is_summary (revenue : list float → float)
    (storeId : option string) (orders : list Order.t) :
  scope_summary revenue storeId orders (summarize revenue storeId orders).
Proof.
  unfold scope_summary, summarize. cbn [totalOrders totalRevenue pendingOrders conversionRate].
  repeat split.
  unfold rate_text.
  destruct (count_where (in_scope storeId) orders); [reflexivity|].
  apply toFixed_one_decimal.
Qed.

(** ** Metrics *)

(** C1: for every order list and scope, what the backend handler answers
    and what the fallback of [db.getMetrics] computes is the summary of the
    orders in scope: totalOrders is their number, pendingOrders the number
    of the pending ones among them, totalRevenue the total of the amounts
    of exactly the completed ones among them (added up by the database's
    [$sum] on the backend, from 0 and left to right in the fallback), and
    conversionRate the completed share times 100 printed as integer part,
    point and exactly one digit, the nearest tenths of the binary64 value,
    or the text 0.0 when the scope holds no order. [db.getMetrics] answers
    with the one or the other. *)
Theorem metrics_are_the_scope_summary (storeId : option string) (w : World) :
  (∃ m, api.get_metrics storeId w = Ok200 m
        ∧ scope_summary (group_sum (mongoSum w)) storeId (mongoOrders w) m) ∧
  (∃ m, db.localMetrics storeId (localStorage w) = Ret m
        ∧ scope_summary left_sum storeId (cachedOrders (localStorage w)) m) ∧
  (∃ m, db.getMetrics storeId w = Ret m
        ∧ scope_summary (if online w then group_sum (mongoSum w) else left_sum)
            storeId
            (if online w then mongoOrders w else cachedOrders (localStorage w)) m).
Proof.
  split; [|split].
  - eexists. split; [apply api_get_metrics_summarize | apply summarize_is_summary].
  - eexists. split; [apply localMetrics_summarize | apply summarize_is_summary].
  - eexists. split; [apply getMetrics_summarize | apply summarize_is_summary].
Qed.

(** The scenario of the specification: three orders, no scope. *)
Example metrics_scenario :
  db.getMetrics None (sampleWorld false [] (Some (Stringified sampleOrders)))
  = Ret {| totalOrders := 3; totalRevenue := 5100; pendingOrders := 1;
           conversionRate := "66.7" |}.
Proof. vm_compute. reflexivity. Qed.

(** No order at all: zeros and the text 0.0, on either path. *)
Example metrics_empty :
  db.getMetrics None (sampleWorld true [] None)
  = Ret {| totalOrders := 0; totalRevenue := 0; pendingOrders := 0;
           conversionRate := "0.0" |}
  ∧ db.getMetrics (Some "s1") (sampleWorld false [] None)
    = Ret {| totalOrders := 0; totalRevenue := 0; pendingOrders := 0;
             conversionRate := "0.0" |}.
Proof. split; reflexivity. Qed.

(** Where the backend collection and the cached list hold the same orders,
    the two paths count alike and print the same rate; the revenue is the
    database's total on the one path and the sum from 0, left to right, on
    the other, of the same amounts. *)
Lemma remote_and_fallback_counts_agree (storeId : option string)
    (w_remote w_local : World) :
  online w_remote = true →
  online w_local = false →
  cachedOrders (localStorage w_local) = mongoOrders w_remote →
  ∃ m m',
    db.getMetrics storeId w_remote = Ret m ∧
    db.getMetrics storeId w_local = Ret m' ∧
    totalOrders m = totalOrders m' ∧
    pendingOrders m = pendingOrders m' ∧
    conversionRate m = conversionRate m' ∧
    totalRevenue m
    = group_sum (mongoSum w_remote)
        (amounts_where (λ o, in_scope storeId o && is_status completed o)
           (mongoOrders w_remote)) ∧
    totalRevenue m'
    = left_sum
        (amounts_where (λ o, in_scope storeId o && is_status completed o)
           (mongoOrders w_remote)).
Proof.
  intros Hon Hoff Hsame.
  rewrite !getMetrics_summarize. unfold targetOrders, revenue_of.
  rewrite Hon, Hoff, Hsame. eexists _, _. by repeat split.
Qed.

(** C8: at three completed orders of 10.1, 10.2 and 10.3 the two paths
    agree on the counts and on the rate. The fallback adds the amounts from
    0, left to right, and answers 30.599999999999998, which is below 30.6;
    the backend answers what the database's [$sum] makes of the three
    amounts, and with a database that carries the rounding errors along
    that is 30.6: the two answers differ. *)
Theorem fallback_revenue_is_the_naive_sum :
  (∀ sum,
     db.getMetrics None (sampleWorldWith sum true centsOrders None)
     = Ret {| totalOrders := 3;
              totalRevenue := sum [10.1%float; 10.2%float; 10.3%float];
              pendingOrders := 0; conversionRate := "100.0" |}) ∧
  (∀ sum,
     db.getMetrics None
       (sampleWorldWith sum false [] (Some (Stringified centsOrders)))
     = Ret {| totalOrders := 3; totalRevenue := (0 + 10.1 + 10.2 + 10.3)%float;
              pendingOrders := 0; conversionRate := "100.0" |}) ∧
  (0 + 10.1 + 10.2 + 10.3 <? 30.6)%float = true ∧
  (compensatedSum [10.1%float; 10.2%float; 10.3%float] =? 30.6)%float = true ∧
  db.getMetrics None (sampleWorld true centsOrders None)
  ≠ db.getMetrics None (sampleWorld false [] (Some (Stringified centsOrders))).
Proof.
  split; [intros sum; vm_compute; reflexivity|].
  split; [intros sum; vm_compute; reflexivity|].
  split; [reflexivity|]. split; [reflexivity|].
  intros Heq.
  apply (f_equal (λ r, match r with
                       | Ret m => (totalRevenue m <? 30.6)%float
                       | Throw _ => false
                       end)) in Heq.
  vm_compute in Heq. discriminate Heq.
Qed.

(** ** Upsert on lists *)

Lemma list_find_split (id : string) (l : list Order.t) (i : nat) (x : Order.t) :
  list_find (has_id id) l = Some (i, x) →
  ∃ l1 l2, l = (l1 ++ x :: l2)%list ∧ length l1 = i
           ∧ Forall (λ o, ¬ has_id id o) l1 ∧ has_id id x.
Proof.
  intros (Hi & Hx & Hbefore)%list_find_Some.
  exists (take i l), (drop (S i) l).
  split; [by rewrite take_drop_middle|].
  assert (i < length l) as Hlen by (by eapply lookup_lt_Some).
  split; [rewrite length_take; lia|].
  split; [|done].
  apply Forall_lookup. intros j y Hj.
  apply lookup_take_Some in Hj as [Hj Hlt]. by eapply Hbefore.
Qed.

Lemma upsert_by_find (id : string) (y : Order.t) (l : list Order.t) :
  upserted id y l
    (match list_find (has_id id) l with
     | Some (i, _) => <[i := y]> l
     | None => (l ++ [y])%list
     end).
Proof.
  destruct (list_find (has_id id) l) as [[i x]|] eqn:Hfind.
  - destruct (list_find_split _ _ _ _ Hfind) as (l1 & l2 & -> & <- & Hl1 & Hx).
    rewrite insert_app_r_alt by lia.
    replace (length l1 - length l1) with 0 by lia. simpl.
    by eapply upserted_replace.
  - apply upserted_append. by apply list_find_None in Hfind.
Qed.

Lemma filter_none (id : string) (l : list Order.t) :
  Forall (λ o, ¬ has_id id o) l → filter (has_id id) l = [].
Proof.
  induction 1 as [|o l Ho _ IH]; [reflexivity|].
  by rewrite filter_cons_False.
Qed.

Lemma list_find_first (id : string) (y : Order.t) (l1 l2 : list Order.t) :
  Forall (λ o, ¬ has_id id o) l1 → has_id id y →
  list_find (has_id id) (l1 ++ y :: l2) = Some (length l1, y).
Proof.
  intros Hl1 Hy. apply list_find_Some. split; [|split; [done|]].
  - by rewrite list_lookup_middle.
  - intros j o Hj Hlt. rewrite lookup_app_l in Hj by done.
    by eapply (proj1 (Forall_lookup _ _) Hl1).
Qed.

(** After an upsert the order found under the id is the stored one. *)
Lemma upserted_find (id : string) (y : Order.t) (l l' : list Order.t) :
  has_id id y → upserted id y l l' →
  ∃ i, list_find (has_id id) l' = Some (i, y).
Proof.
  intros Hy [l1 x l2 -> Hl1 Hx | Hl].
  - exists (length l1). by apply list_find_first.
  - exists (length l). by apply list_find_first.
Qed.

(** After an upsert into a store with at most one order of that id, the
    stored one is the only order of that id. *)
Lemma upserted_only (id : string) (y : Order.t) (l l' : list Order.t) :
  has_id id y → (length (filter (has_id id) l) ≤ 1)%nat → upserted id y l l' →
  filter (has_id id) l' = [y].
Proof.
  intros Hy Hle [l1 x l2 -> Hl1 Hx | Hl].
  - rewrite filter_app, filter_cons_True in Hle by done.
    rewrite (filter_none _ _ Hl1) in Hle. simpl in Hle.
    assert (filter (has_id id) l2 = []) as Hl2
      by (destruct (filter (has_id id) l2); [done | simpl in Hle; lia]).
    rewrite filter_app, filter_cons_True by done.
    by rewrite (filter_none _ _ Hl1), Hl2.
  - rewrite filter_app, (filter_none _ _ Hl).
    by rewrite filter_cons_True.
Qed.

(** Ids stay unique under upserts. *)
Lemma upserted_keeps_ids_unique (id : string) (y : Order.t) (l l' : list Order.t) :
  has_id id y → upserted id y l l' → ids_unique l → ids_unique l'.
Proof.
  intros Hy Hup Huniq k.
  destruct (decide (k = id)) as [->|Hne].
  - by rewrite (upserted_only id y l l').
  - specialize (Huniq k).
    assert (¬ has_id k y) as Hky by (unfold has_id in *; congruence).
    destruct Hup as [l1 x l2 -> Hl1 Hx | Hl].
    + assert (¬ has_id k x) as Hkx by (unfold has_id in *; congruence).
      rewrite filter_app, filter_cons_False in Huniq by done.
      by rewrite filter_app, filter_cons_False.
    + rewrite filter_app, filter_cons_False by done.
      simpl. by rewrite app_nil_r.
Qed.

(** Overwriting the found order by one of the same id keeps ids unique. *)
Lemma restamp_keeps_ids_unique (id : string) (l : list Order.t) (i : nat)
    (x x' : Order.t) :
  list_find (has_id id) l = Some (i, x) → Order.id x' = Order.id x →
  ids_unique l → ids_unique (<[i := x']> l).
Proof.
  intros (l1 & l2 & -> & <- & _ & _)%list_find_split Hsame Huniq k.
  specialize (Huniq k).
  rewrite insert_app_r_alt by lia.
  replace (length l1 - length l1) with 0 by lia. simpl.
  rewrite filter_app, filter_cons in Huniq. rewrite filter_app, filter_cons.
  destruct (decide (has_id k x)) as [Hx|Hx], (decide (has_id k x')) as [Hx'|Hx'];
    unfold has_id in *; try congruence.
  by rewrite !length_app in *.
Qed.

(** ** [db.saveOrder] and [db.getOrderById] *)

Lemma cachedOrders_set (l : list Order.t) (ls : Storage) :
  cachedOrders (setLocalOrders l ls) = l.
Proof. reflexivity. Qed.

Lemma saveOrder_spec (o : Order.t) (w : World) :
  fst (db.saveOrder o w) = Ret (savedDoc o w) ∧
  online (snd (db.saveOrder o w)) = online w ∧
  upserted (Order.id o) (savedDoc o w)
    (targetOrders w) (targetOrders (snd (db.saveOrder o w))).
Proof.
  unfold db.saveOrder, axios, savedDoc, targetOrders.
  destruct (online w) eqn:Hnet.
  - unfold api.post_orders, mongoose.findOneAndUpdate_upsert, mongoose.findOne.
    simpl.
    pose proof (upsert_by_find (Order.id o)) as Hup.
    destruct (list_find (has_id (Order.id o)) (mongoOrders w)) as [[i doc]|] eqn:Hfind;
      simpl; rewrite Hnet; repeat split; try done.
    + specialize (Hup (mongoose.apply_set
                         (Order.with_updatedAt (clock w (ticks w)) o) doc)
                      (mongoOrders w)).
      by rewrite Hfind in Hup.
    + specialize (Hup (mongoose.new_doc
                         (Order.with_updatedAt (clock w (ticks w)) o))
                      (mongoOrders w)).
      by rewrite Hfind in Hup.
  - rewrite getLocalOrders_Ret. simpl. rewrite Hnet.
    repeat split; try done.
    pose proof (upsert_by_find (Order.id o)
                  (Order.with_updatedAt (clock w (ticks w)) o)
                  (cachedOrders (localStorage w))) as Hup.
    rewrite cachedOrders_set.
    by destruct (list_find (has_id (Order.id o)) (cachedOrders (localStorage w)))
      as [[i doc]|].
Qed.

Lemma savedDoc_required (o : Order.t) (w : World) :
  Order.id (savedDoc o w) = Order.id o ∧
  Order.amount (savedDoc o w) = Order.amount o ∧
  Order.description (savedDoc o w) = Order.description o ∧
  Order.createdAt (savedDoc o w) = Order.createdAt o ∧
  Order.status (savedDoc o w) = Order.status o ∧
  Order.updatedAt (savedDoc o w) = clock w (ticks w).
Proof.
  unfold savedDoc. destruct (online w); [|done].
  by destruct (mongoose.findOne (Order.id o) (mongoOrders w)) as [[i doc]|].
Qed.

Lemma savedDoc_store (o : Order.t) (w : World) (sid sname : string) :
  Order.store_id o = Some sid → Order.store_name o = Some sname →
  Order.store_id (savedDoc o w) = Some sid ∧
  Order.store_name (savedDoc o w) = Some sname.
Proof.
  intros Hid Hname. unfold savedDoc. destruct (online w); [|done].
  destruct (mongoose.findOne (Order.id o) (mongoOrders w)) as [[i doc]|]; simpl;
    by rewrite ?Hid, ?Hname.
Qed.

Lemma getOrderById_target (id : string) (w : World) (i : nat) (y : Order.t) :
  list_find (has_id id) (targetOrders w) = Some (i, y) →
  db.getOrderById id w = Ret (Some y).
Proof.
  unfold db.getOrderById, axios, targetOrders, api.get_order, mongoose.findOne.
  destruct (online w); intros Hfind.
  - by rewrite Hfind.
  - by rewrite getLocalOrders_Ret, Hfind.
Qed.

Lemma saveOrder_then_get (o : Order.t) (w : World) :
  db.getOrderById (Order.id o) (snd (db.saveOrder o w)) = Ret (Some (savedDoc o w)).
Proof.
  destruct (saveOrder_spec o w) as (_ & _ & Hup).
  destruct (upserted_find _ _ _ _ (proj1 (savedDoc_required o w)) Hup) as [i Hfind].
  by eapply getOrderById_target.
Qed.

(** The empty store has unique ids and every write of [db] keeps them so:
    the stores the program builds never hold two orders of one id. *)
Lemma ids_unique_nil : ids_unique [].
Proof. intros k. simpl. lia. Qed.

Lemma saveOrder_keeps_ids_unique (o : Order.t) (w : World) :
  ids_unique (targetOrders w) → ids_unique (targetOrders (snd (db.saveOrder o w))).
Proof.
  destruct (saveOrder_spec o w) as (_ & _ & Hup).
  apply (upserted_keeps_ids_unique (Order.id o) (savedDoc o w)); [|done].
  apply savedDoc_required.
Qed.

Lemma updateStatus_keeps_ids_unique (id : string) (status : OrderStatus) (w : World) :
  ids_unique (targetOrders w) →
  ids_unique (targetOrders (snd (db.updateStatus id status w))).
Proof.
  unfold db.updateStatus, axios, api.patch_status,
    mongoose.findOneAndUpdate_status, mongoose.findOne, targetOrders.
  destruct (online w) eqn:Hnet; simpl.
  - destruct (list_find (has_id id) (mongoOrders w)) as [[i x]|] eqn:Hfind;
      simpl; rewrite Hnet; [|done].
    by apply (restamp_keeps_ids_unique id _ _ x).
  - rewrite getLocalOrders_Ret.
    destruct (list_find (has_id id) (cachedOrders (localStorage w)))
      as [[i x]|] eqn:Hfind; simpl; rewrite Hnet; [|done].
    rewrite cachedOrders_set. by apply (restamp_keeps_ids_unique id _ _ x).
Qed.

(** C7: the round trip depends on the target. Saving an order without a
    customer name under the id of a stored order that has one reads back,
    through the backend, with the stored name still in place, where the
    saved order has none; through the fallback of the same [db.saveOrder]
    it reads back as saved, key for key, with updatedAt the time of the
    save. A new order with a customer address reads back without the
    address through the backend and with it through the fallback. *)
Theorem saveOrder_round_trip_differs_by_target :
  (∃ y,
     db.getOrderById "a1"
       (snd (db.saveOrder (sampleOrder "a1" 20 pending None)
               (sampleWorld true [anaOrder] None)))
     = Ret (Some y) ∧
     Order.customer_name y = Some "Ana" ∧
     Order.customer_name (sampleOrder "a1" 20 pending None) = None) ∧
  db.getOrderById "a1"
    (snd (db.saveOrder (sampleOrder "a1" 20 pending None)
            (sampleWorld false [] (Some (Stringified [anaOrder])))))
  = Ret (Some (Order.mk "a1" 20 "Link Rápido" "2024-05-01T10:00:00.000Z" pending
                 None None None None None None None None None None "T0")) ∧
  (∃ y,
     db.getOrderById "e5" (snd (db.saveOrder addressOrder (sampleWorld true [] None)))
     = Ret (Some y) ∧
     Order.customer_address y = None ∧
     Order.customer_address addressOrder = Some "Rua A, 10") ∧
  db.getOrderById "e5" (snd (db.saveOrder addressOrder (sampleWorld false [] None)))
  = Ret (Some (Order.mk "e5" 80 "Entrega" "2024-05-01T10:00:00.000Z" pending
                 None None None None None (Some "Bia") None None None
                 (Some "Rua A, 10") "T0")).
Proof.
  split; [eexists; split; [vm_compute; reflexivity | split; reflexivity]|].
  split; [vm_compute; reflexivity|].
  split; [eexists; split; [vm_compute; reflexivity | split; reflexivity]|].
  vm_compute. reflexivity.
Qed.

(** C6: saving two orders of one id, one after the other, into a store that
    held at most one order of that id leaves exactly one order of that id,
    and it carries the amount of the second save. *)
Theorem saveOrder_twice_keeps_one (o1 o2 : Order.t) (w : World) :
  Order.id o1 = Order.id o2 →
  (length (filter (has_id (Order.id o1)) (targetOrders w)) ≤ 1)%nat →
  ∃ y,
    filter (has_id (Order.id o1))
      (targetOrders (snd (db.saveOrder o2 (snd (db.saveOrder o1 w))))) = [y] ∧
    Order.amount y = Order.amount o2.
Proof.
  intros Hid Hle.
  destruct (saveOrder_spec o1 w) as (_ & _ & Hup1).
  set (w1 := snd (db.saveOrder o1 w)) in *.
  destruct (saveOrder_spec o2 w1) as (_ & _ & Hup2).
  rewrite <- Hid in Hup2.
  pose proof (upserted_only _ _ _ _ (proj1 (savedDoc_required o1 w)) Hle Hup1) as H1.
  assert (has_id (Order.id o1) (savedDoc o2 w1)) as Hy2.
  { unfold has_id. rewrite Hid. apply savedDoc_required. }
  exists (savedDoc o2 w1). split.
  - apply (upserted_only _ _ (targetOrders w1)); [done| |done].
    by rewrite H1.
  - apply savedDoc_required.
Qed.

Lemma saveOrder_twice_keeps_one_witness :
  ∃ y,
    filter (has_id "a1")
      (targetOrders
         (snd (db.saveOrder (sampleOrder "a1" 250 pending None)
                 (snd (db.saveOrder (sampleOrder "a1" 100 pending None)
                         (sampleWorld true sampleOrders None)))))) = [y] ∧
    Order.amount y = 250%float.
Proof.
  apply (saveOrder_twice_keeps_one (sampleOrder "a1" 100 pending None)
           (sampleOrder "a1" 250 pending None)
           (sampleWorld true sampleOrders None)).
  - reflexivity.
  - vm_compute. lia.
Defined.

(** ** [db.updateStatus] on an unknown id *)

(** C5, as the code has it: for an id the store does not hold,
    [db.updateStatus] resolves without reporting anything (the backend
    answers 200 with a null body, the fallback skips the write), and
    neither the collection nor the cache changes. *)
Theorem updateStatus_unknown_is_silent (id : string) (status : OrderStatus) (w : World) :
  Forall (λ o, ¬ has_id id o) (targetOrders w) →
  fst (db.updateStatus id status w) = Ret () ∧
  mongoOrders (snd (db.updateStatus id status w)) = mongoOrders w ∧
  localStorage (snd (db.updateStatus id status w)) = localStorage w ∧
  (online w = true → fst (api.patch_status id status w) = Ok200 None).
Proof.
  intros Habsent. apply (proj2 (list_find_None (has_id id) _)) in Habsent.
  unfold db.updateStatus, axios, api.patch_status,
    mongoose.findOneAndUpdate_status, mongoose.findOne, targetOrders in *.
  destruct (online w); simpl.
  - by rewrite Habsent.
  - rewrite getLocalOrders_Ret, Habsent. by repeat split.
Qed.

Lemma updateStatus_unknown_is_silent_witness :
  fst (db.updateStatus "zz9" completed (sampleWorld true sampleOrders None)) = Ret ().
Proof.
  apply (updateStatus_unknown_is_silent "zz9" completed
           (sampleWorld true sampleOrders None)).
  apply (proj1 (list_find_None (has_id "zz9") _)). vm_compute. reflexivity.
Defined.

(** C5 as stated fails: on an id the store does not hold the call is not
    rejected, neither through the backend nor through the fallback. *)
Lemma updateStatus_unknown_not_reported :
  Forall (λ o, ¬ has_id "zz9" o) sampleOrders ∧
  ¬ rejected (fst (db.updateStatus "zz9" completed
                     (sampleWorld true sampleOrders None))) ∧
  ¬ rejected (fst (db.updateStatus "zz9" completed
                     (sampleWorld false [] (Some (Stringified sampleOrders))))).
Proof.
  split; [apply (proj1 (list_find_None (has_id "zz9") _)); vm_compute; reflexivity|].
  split; intros [e He]; vm_compute in He; discriminate He.
Qed.

(** ** Link generation *)

Lemma handleGenerateLink_rejects (parseFloat : string → float)
    (amount description : string) (selectedStore : option Store.t) (w : World) :
  Number.isNaN (parseFloat amount) = true
  ∨ (parseFloat amount <? 10)%float = true
  ∨ (6000 <? parseFloat amount)%float = true →
  handleGenerateLink parseFloat amount description selectedStore w
  = (Alert MSG_RANGE, w).
Proof.
  intros Hbad. unfold handleGenerateLink.
  destruct Hbad as [-> | [-> | ->]]; rewrite ?orb_true_r; reflexivity.
Qed.

(** The order the handler builds before saving it. *)
Lemma handleGenerateLink_accepts (parseFloat : string → float)
    (amount description : string) (selectedStore : option Store.t) (w : World) :
  Number.isNaN (parseFloat amount) = false →
  (parseFloat amount <? 10)%float = false →
  (6000 <? parseFloat amount)%float = false →
  ∃ newOrder w3,
    handleGenerateLink parseFloat amount description selectedStore w
    = (LinkCopied (random w (draws w)), snd (db.saveOrder newOrder w3)) ∧
    Order.id newOrder = random w (draws w) ∧
    Order.amount newOrder = parseFloat amount ∧
    Order.status newOrder = pending ∧
    Order.createdAt newOrder = clock w (ticks w) ∧
    Order.store_id newOrder = Store.id <$> selectedStore ∧
    Order.store_name newOrder = Store.name <$> selectedStore ∧
    clock w3 = clock w ∧ ticks w3 = S (S (ticks w)).
Proof.
  intros Hnum Hmin Hmax. unfold handleGenerateLink.
  rewrite Hnum, Hmin, Hmax. simpl.
  match goal with
  | |- context [db.saveOrder ?o ?w3] => exists o, w3
  end.
  split; [|by repeat split].
  by destruct (db.saveOrder _ _).
Qed.

(** C4, as the code has it: an amount that is not a number, below 10 or
    above 6000 ends in an alert and leaves the world -- backend and cache --
    as it was. Any other amount stores an order that can be read back under
    the drawn id, with that amount, status pending, createdAt the first
    clock reading and updatedAt the third one (taken by the save), and with
    the id and name of the selected store when there is one. *)
Theorem generate_link_validates_then_persists (parseFloat : string → float)
    (amount description : string) (selectedStore : option Store.t) (w : World) :
  (Number.isNaN (parseFloat amount) = true
   ∨ (parseFloat amount <? 10)%float = true
   ∨ (6000 <? parseFloat amount)%float = true →
   handleGenerateLink parseFloat amount description selectedStore w
   = (Alert MSG_RANGE, w)) ∧
  (Number.isNaN (parseFloat amount) = false →
   (parseFloat amount <? 10)%float = false →
   (6000 <? parseFloat amount)%float = false →
   ∃ y,
     fst (handleGenerateLink parseFloat amount description selectedStore w)
     = LinkCopied (random w (draws w)) ∧
     db.getOrderById (random w (draws w))
       (snd (handleGenerateLink parseFloat amount description selectedStore w))
     = Ret (Some y) ∧
     Order.id y = random w (draws w) ∧
     Order.amount y = parseFloat amount ∧
     Order.status y = pending ∧
     Order.createdAt y = clock w (ticks w) ∧
     Order.updatedAt y = clock w (S (S (ticks w))) ∧
     (∀ store, selectedStore = Some store →
        Order.store_id y = Some (Store.id store) ∧
        Order.store_name y = Some (Store.name store))).
Proof.
  split; [apply handleGenerateLink_rejects|].
  intros Hnum Hmin Hmax.
  destruct (handleGenerateLink_accepts parseFloat amount description
              selectedStore w Hnum Hmin Hmax)
    as (o & w3 & -> & Hid & Hamount & Hstatus & Hcreated & Hsid & Hsname & Hclock & Hticks).
  destruct (savedDoc_required o w3) as (Yid & Yamount & _ & Ycreated & Ystatus & Yupdated).
  exists (savedDoc o w3). simpl.
  split; [done|].
  split; [rewrite <- Hid; apply saveOrder_then_get|].
  do 5 (split; [congruence|]).
  intros store ->. by apply (savedDoc_store o w3).
Qed.

Lemma generate_link_validates_then_persists_witness :
  handleGenerateLink sampleParse "9.99" "" (Some sampleStore)
    (sampleWorld true sampleOrders None)
  = (Alert MSG_RANGE, sampleWorld true sampleOrders None)
  ∧ ∃ y,
      fst (handleGenerateLink sampleParse "100" "" (Some sampleStore)
             (sampleWorld true sampleOrders None))
      = LinkCopied "k0" ∧
      db.getOrderById "k0"
        (snd (handleGenerateLink sampleParse "100" "" (Some sampleStore)
                (sampleWorld true sampleOrders None)))
      = Ret (Some y) ∧
      Order.status y = pending ∧
      Order.createdAt y = "T0" ∧
      Order.updatedAt y = "T2".
Proof.
  split.
  - apply (proj1 (generate_link_validates_then_persists sampleParse "9.99" ""
                    (Some sampleStore) (sampleWorld true sampleOrders None))).
    right. left. reflexivity.
  - destruct (proj2 (generate_link_validates_then_persists sampleParse "100" ""
                       (Some sampleStore) (sampleWorld true sampleOrders None))
                eq_refl eq_refl eq_refl)
      as (y & Hfst & Hget & _ & _ & Hstatus & Hcreated & Hupdated & _).
    exists y. repeat split; assumption.
Defined.

(** C4 as stated fails: the stored order has an updatedAt later than its
    createdAt, and the drawn id may be one the store already holds. *)
Lemma generated_order_not_fresh_nor_same_instant :
  ∃ y,
    db.getOrderById "k0"
      (snd (handleGenerateLink sampleParse "100" "" None
              (sampleWorld false [] (Some (Stringified [sampleOrder "k0" 20 completed None])))))
    = Ret (Some y) ∧
    Order.createdAt y ≠ Order.updatedAt y ∧
    Order.id y
    ∈ Order.id <$> targetOrders
        (sampleWorld false [] (Some (Stringified [sampleOrder "k0" 20 completed None]))).
Proof.
  eexists. split; [vm_compute; reflexivity|].
  split; [discriminate|]. vm_compute. apply list_elem_of_here.
Qed.

(** ** The financial card *)

(** C9, as the code has it: with a store selected and a positive revenue,
    the fees are revenue * percent / 100 + orders * fixed, where percent and
    fixed are the store's values when present and non-zero and 0 otherwise;
    with no store selected, or a revenue that is not positive, the fees are
    0; the net is the revenue minus the fees. *)
Theorem estimated_fees_guarded (metrics : Metrics) (selectedStore : option Store.t) :
  (∀ store, selectedStore = Some store →
     (0 <? totalRevenue metrics)%float = true →
     estimatedFees metrics selectedStore
     = (totalRevenue metrics * Number.or_zero (Store.pixFeePercentage store) / 100
        + Number.of_nat (totalOrders metrics)
          * Number.or_zero (Store.pixFeeFixed store))%float) ∧
  (selectedStore = None ∨ (0 <? totalRevenue metrics)%float = false →
     estimatedFees metrics selectedStore = 0%float) ∧
  estimatedNet metrics selectedStore
  = (totalRevenue metrics - estimatedFees metrics selectedStore)%float ∧
  Number.or_zero None = 0%float ∧
  (∀ v, PrimFloat.is_nan v = false → (v =? 0)%float = false →
     Number.or_zero (Some v) = v) ∧
  (∀ v, PrimFloat.is_nan v = true ∨ (v =? 0)%float = true →
     Number.or_zero (Some v) = 0%float).
Proof.
  unfold estimatedFees, estimatedNet, Number.or_zero.
  repeat split.
  - by intros store -> ->.
  - intros [-> | Hrev]; [done|]. rewrite Hrev. by destruct selectedStore.
  - by intros v -> ->.
  - intros v [-> | ->]; by rewrite ?orb_true_r.
Qed.

Lemma estimated_fees_guarded_witness :
  estimatedFees unpaidMetrics (Some sampleStore) = 0%float.
Proof.
  apply (proj1 (proj2 (estimated_fees_guarded unpaidMetrics (Some sampleStore)))).
  right. reflexivity.
Defined.

(** C9 as stated fails: three orders, no revenue and a fixed fee of 0.50
    give fees of 0, not 3 * 0.50. *)
Lemma no_revenue_no_fees :
  estimatedFees unpaidMetrics (Some sampleStore)
  ≠ (totalRevenue unpaidMetrics * 0.99 / 100
     + Number.of_nat (totalOrders unpaidMetrics) * 0.5)%float.
Proof.
  intros Heq.
  apply (f_equal (λ x, (x =? 0)%float)) in Heq.
  vm_compute in Heq. discriminate Heq.
Qed.


(** * Further properties of the modelled code *)

(** ** Binary64 order *)

Lemma SFcompare_antisym (x y : spec_float) :
  SFcompare y x = CompOpp <$> SFcompare x y.
Proof.
  destruct x as [[]|[]| |[] mx ex], y as [[]|[]| |[] my ey]; simpl; try done;
    pose proof (Pos.compare_cont_antisym mx my Eq) as Hm; simpl in Hm;
    rewrite (Z.compare_antisym ex ey);
    destruct (ex ?= ey)%Z; simpl; try done.
  - change (PosDef.Pos.compare_cont Eq my mx) with (Pos.compare_cont Eq my mx).
    by rewrite <- Hm.
  - change (PosDef.Pos.compare_cont Eq my mx) with (Pos.compare_cont Eq my mx).
    by rewrite <- Hm.
Qed.

Lemma SFcompare_refl (x : spec_float) :
  x ≠ S754_nan → SFcompare x x = Some Eq.
Proof.
  destruct x as [[]|[]| |[] m e]; simpl; try done; intros _;
    change (PosDef.Pos.compare_cont Eq m m) with (Pos.compare_cont Eq m m);
    by rewrite Z.compare_refl, Pos.compare_cont_refl.
Qed.

Lemma is_nan_false (x : float) :
  PrimFloat.is_nan x = false → Prim2SF x ≠ S754_nan.
Proof.
  unfold PrimFloat.is_nan. rewrite FloatAxioms.eqb_spec. intros Hx Hnan.
  rewrite Hnan in Hx. discriminate Hx.
Qed.

(** On numbers, "not below" is "at least". *)
Lemma not_ltb_leb (x y : float) :
  PrimFloat.is_nan x = false → PrimFloat.is_nan y = false →
  (x <? y)%float = false → (y <=? x)%float = true.
Proof.
  intros Hx%is_nan_false Hy%is_nan_false.
  rewrite FloatAxioms.ltb_spec, FloatAxioms.leb_spec. unfold SFltb, SFleb.
  rewrite (SFcompare_antisym (Prim2SF x) (Prim2SF y)).
  destruct (Prim2SF x) as [[]|[]| |[] mx ex], (Prim2SF y) as [[]|[]| |[] my ey];
    simpl; try done;
    destruct (ex ?= ey)%Z; simpl; try done;
    destruct (Pos.compare_cont Eq mx my); simpl; done.
Qed.

(** ** Reading one order *)

Lemma find_order_cons (id : string) (o : Order.t) (l : list Order.t) :
  find_order id (o :: l) = if decide (has_id id o) then Some o else find_order id l.
Proof.
  unfold find_order. simpl. destruct (decide (has_id id o)); [done|].
  by destruct (list_find (has_id id) l) as [[i x]|].
Qed.

Lemma find_order_app (id : string) (l1 l2 : list Order.t) :
  find_order id (l1 ++ l2)
  = match find_order id l1 with Some y => Some y | None => find_order id l2 end.
Proof.
  induction l1 as [|o l1 IH]; [done|].
  rewrite <- app_comm_cons, !find_order_cons.
  by destruct (decide (has_id id o)).
Qed.

Lemma find_order_none (id : string) (l : list Order.t) :
  Forall (λ o, ¬ has_id id o) l → find_order id l = None.
Proof.
  intros Hl. unfold find_order.
  by rewrite (proj2 (list_find_None (has_id id) l) Hl).
Qed.

Lemma getOrderById_lookup (id : string) (w : World) :
  db.getOrderById id w
  = Ret (match find_order id (targetOrders w) with
         | Some y => Some y
         | None => if online w then find_order id (otherOrders w) else None
         end).
Proof.
  unfold db.getOrderById, axios, api.get_order, mongoose.findOne,
    targetOrders, otherOrders, find_order.
  rewrite getLocalOrders_Ret.
  destruct (online w); [|by destruct (list_find _ _) as [[? ?]|]].
  by destruct (list_find (has_id id) (mongoOrders w)) as [[i y]|].
Qed.

Lemma find_order_first (id : string) (y : Order.t) (l1 l2 : list Order.t) :
  Forall (λ o, ¬ has_id id o) l1 → has_id id y →
  find_order id (l1 ++ y :: l2) = Some y.
Proof.
  intros Hl1 Hy. rewrite find_order_app, (find_order_none _ _ Hl1), find_order_cons.
  by destruct (decide (has_id id y)).
Qed.

Lemma find_order_swap (id : string) (x y : Order.t) (l1 l2 : list Order.t) :
  ¬ has_id id x → ¬ has_id id y →
  find_order id (l1 ++ y :: l2) = find_order id (l1 ++ x :: l2).
Proof.
  intros Hx Hy. rewrite !find_order_app, !find_order_cons.
  by destruct (decide (has_id id x)), (decide (has_id id y)).
Qed.

Lemma insert_found (id : string) (l : list Order.t) (i : nat) (x y : Order.t) :
  list_find (has_id id) l = Some (i, x) →
  ∃ l1 l2, l = (l1 ++ x :: l2)%list ∧ <[i := y]> l = (l1 ++ y :: l2)%list
           ∧ Forall (λ o, ¬ has_id id o) l1 ∧ has_id id x.
Proof.
  intros (l1 & l2 & -> & <- & Hl1 & Hx)%list_find_split.
  exists l1, l2. rewrite insert_app_r_alt by lia.
  replace (length l1 - length l1) with 0 by lia. done.
Qed.

Lemma upserted_find_other (id id' : string) (y : Order.t) (l l' : list Order.t) :
  has_id id y → id' ≠ id → upserted id y l l' →
  find_order id' l' = find_order id' l.
Proof.
  intros Hy Hne [l1 x l2 -> Hl1 Hx | Hl].
  - apply find_order_swap; unfold has_id in *; congruence.
  - rewrite find_order_app, find_order_cons.
    destruct (decide (has_id id' y)) as [Hy'|_];
      [unfold has_id in *; congruence|].
    by destruct (find_order id' l).
Qed.

(** ** The cache helpers on raw JSON *)

Lemma getLocalRaw_Ret (item : option RawItem) :
  getLocalRaw item
  = Ret (match item with Some (RawJson value) => value | _ => JArray [] end).
Proof.
  unfold getLocalRaw. destruct item as [[text|value]|]; simpl; try reflexivity.
  destruct text; reflexivity.
Qed.

Lemma property_app (key : string) (l1 l2 : list (string * Json)) :
  property key (l1 ++ l2)
  = match property key l2 with
    | Some later => Some later
    | None => property key l1
    end.
Proof.
  induction l1 as [|[k v] l1 IH]; simpl; [by destruct (property key l2)|].
  rewrite IH. by destruct (property key l2).
Qed.

Lemma property_optional_key (key k : string) (v : option string) :
  k ≠ key → property key (optional_key k v) = None.
Proof.
  intros Hne. destruct v as [s|]; simpl; [|done].
  by destruct (decide (k = key)).
Qed.

Lemma read_id_order_json (o : Order.t) :
  read_id (order_json o) = Ret (Some (JString (Order.id o))).
Proof.
  unfold read_id, order_json.
  rewrite !property_app, !property_optional_key by discriminate.
  reflexivity.
Qed.

(** On a cache that holds a list of orders the raw trace is the typed one:
    it finds the order that [find_order] finds. *)
Lemma raw_find_orders (id : string) (orders : list Order.t) :
  raw_find id (order_json <$> orders) = Ret (order_json <$> find_order id orders).
Proof.
  induction orders as [|o orders IH]; [reflexivity|].
  rewrite fmap_cons, find_order_cons.
  cbn [raw_find]. rewrite read_id_order_json, IH.
  unfold has_id. by destruct (decide (Order.id o = id)).
Qed.

Lemma raw_fallback_typed (id : string) (ls : Storage) :
  raw_getOrderById_fallback id (item_json <$> DB_KEY_ORDERS ls)
  = Ret (order_json <$> find_order id (cachedOrders ls)).
Proof.
  unfold raw_getOrderById_fallback, cachedOrders. rewrite getLocalRaw_Ret.
  destruct (DB_KEY_ORDERS ls) as [[text|orders]|]; simpl; try reflexivity.
  apply raw_find_orders.
Qed.

(** C10: the helper itself always returns: the parsed value when the text
    parses, the empty list for a missing key, empty text and text that does
    not parse. The parsed value need not be a list. On stored text [null]
    the helper returns [null] and the fallback of [db.getOrderById] throws
    a TypeError; so it does on [{}] and on [[null]]; on no key and on text
    that does not parse it answers [undefined]. *)
Theorem cache_helper_returns_what_parses :
  (∀ item,
     getLocalRaw item
     = Ret (match item with Some (RawJson value) => value | _ => JArray [] end)) ∧
  getLocalRaw (Some (RawJson JNull)) = Ret JNull ∧
  raw_getOrderById_fallback "a1" (Some (RawJson JNull)) = Throw TypeError ∧
  raw_getOrderById_fallback "a1" (Some (RawJson (JObject []))) = Throw TypeError ∧
  raw_getOrderById_fallback "a1" (Some (RawJson (JArray [JNull]))) = Throw TypeError ∧
  raw_getOrderById_fallback "a1" (Some (RawUnparsable "{oops")) = Ret None ∧
  raw_getOrderById_fallback "a1" None = Ret None ∧
  raw_getOrderById_fallback "a1" (Some (item_json (Stringified [anaOrder])))
  = Ret (Some (order_json anaOrder)).
Proof.
  split; [apply getLocalRaw_Ret|]. repeat split; reflexivity.
Qed.

(** ** What a write leaves alone *)

Lemma saveOrder_revenue_of (o : Order.t) (w : World) :
  revenue_of (snd (db.saveOrder o w)) = revenue_of w.
Proof.
  unfold db.saveOrder, axios, revenue_of.
  destruct (online w) eqn:Hnet.
  - unfold api.post_orders, mongoose.findOneAndUpdate_upsert. simpl.
    destruct (mongoose.findOne _ _) as [[i doc]|]; simpl; by rewrite Hnet.
  - rewrite getLocalOrders_Ret. simpl. by rewrite Hnet.
Qed.

Lemma saveOrder_other (o : Order.t) (w : World) :
  otherOrders (snd (db.saveOrder o w)) = otherOrders w.
Proof.
  unfold db.saveOrder, axios, otherOrders.
  destruct (online w) eqn:Hnet.
  - unfold api.post_orders, mongoose.findOneAndUpdate_upsert. simpl.
    destruct (mongoose.findOne _ _) as [[i doc]|]; simpl; by rewrite Hnet.
  - rewrite getLocalOrders_Ret. simpl. by rewrite Hnet.
Qed.

Lemma updateStatus_found (id : string) (status : OrderStatus) (w : World)
    (i : nat) (x : Order.t) :
  list_find (has_id id) (targetOrders w) = Some (i, x) →
  fst (db.updateStatus id status w) = Ret () ∧
  online (snd (db.updateStatus id status w)) = online w ∧
  targetOrders (snd (db.updateStatus id status w))
    = <[i := Order.with_status status (clock w (ticks w)) x]> (targetOrders w) ∧
  otherOrders (snd (db.updateStatus id status w)) = otherOrders w.
Proof.
  unfold db.updateStatus, axios, api.patch_status,
    mongoose.findOneAndUpdate_status, mongoose.findOne, targetOrders, otherOrders.
  destruct (online w) eqn:Hnet; simpl; intros Hfind.
  - rewrite Hfind. simpl. by rewrite Hnet.
  - rewrite getLocalOrders_Ret, Hfind. simpl. by rewrite Hnet.
Qed.

Lemma updateStatus_absent (id : string) (status : OrderStatus) (w : World) :
  Forall (λ o, ¬ has_id id o) (targetOrders w) →
  fst (db.updateStatus id status w) = Ret () ∧
  online (snd (db.updateStatus id status w)) = online w ∧
  targetOrders (snd (db.updateStatus id status w)) = targetOrders w ∧
  otherOrders (snd (db.updateStatus id status w)) = otherOrders w.
Proof.
  intros Habsent. apply (proj2 (list_find_None (has_id id) _)) in Habsent.
  unfold db.updateStatus, axios, api.patch_status,
    mongoose.findOneAndUpdate_status, mongoose.findOne, targetOrders, otherOrders in *.
  destruct (online w) eqn:Hnet; simpl.
  - rewrite Habsent. simpl. by rewrite Hnet.
  - rewrite getLocalOrders_Ret, Habsent. simpl. by rewrite Hnet.
Qed.

(** X2: An order that only the cache holds is still found while the backend is
    reachable, but a status change for it is lost: the call resolves, the
    backend matches nothing, the cache is not written, and the order reads
    back unchanged. *)
Theorem cached_only_order_status_change_is_lost (id : string)
    (status : OrderStatus) (w : World) (x : Order.t) :
  online w = true →
  Forall (λ o, ¬ has_id id o) (mongoOrders w) →
  find_order id (cachedOrders (localStorage w)) = Some x →
  db.getOrderById id w = Ret (Some x) ∧
  fst (db.updateStatus id status w) = Ret () ∧
  db.getOrderById id (snd (db.updateStatus id status w)) = Ret (Some x).
Proof.
  intros Hnet Habsent Hcached.
  assert (Forall (λ o, ¬ has_id id o) (targetOrders w)) as Htarget
    by (unfold targetOrders; by rewrite Hnet).
  destruct (updateStatus_absent id status w Htarget) as (Hret & Hnet' & Ht & Ho).
  split; [|split; [done|]].
  - rewrite getOrderById_lookup. unfold targetOrders, otherOrders.
    by rewrite Hnet, (find_order_none _ _ Habsent), Hcached.
  - rewrite getOrderById_lookup, Ht, Ho, Hnet'.
    unfold targetOrders, otherOrders.
    by rewrite Hnet, (find_order_none _ _ Habsent), Hcached.
Qed.

Lemma cached_only_order_status_change_is_lost_witness :
  db.getOrderById "a1"
    (snd (db.updateStatus "a1" completed
            (sampleWorld true [] (Some (Stringified [anaOrder])))))
  = Ret (Some anaOrder).
Proof.
  apply (cached_only_order_status_change_is_lost "a1" completed
           (sampleWorld true [] (Some (Stringified [anaOrder]))) anaOrder).
  - reflexivity.
  - constructor.
  - reflexivity.
Defined.

Lemma find_order_Some (id : string) (l : list Order.t) (x : Order.t) :
  find_order id l = Some x → ∃ i, list_find (has_id id) l = Some (i, x).
Proof.
  unfold find_order. destruct (list_find (has_id id) l) as [[i y]|]; [|done].
  intros [= ->]. by exists i.
Qed.

Lemma find_order_Some_inv (id : string) (l : list Order.t) (i : nat) (x : Order.t) :
  list_find (has_id id) l = Some (i, x) → find_order id l = Some x.
Proof. unfold find_order. by intros ->. Qed.

Lemma updateStatus_clock (id : string) (status : OrderStatus) (w : World)
    (i : nat) (x : Order.t) :
  list_find (has_id id) (targetOrders w) = Some (i, x) →
  clock (snd (db.updateStatus id status w)) = clock w ∧
  ticks (snd (db.updateStatus id status w)) = S (ticks w).
Proof.
  unfold db.updateStatus, axios, api.patch_status,
    mongoose.findOneAndUpdate_status, mongoose.findOne, targetOrders.
  destruct (online w) eqn:Hnet; simpl; intros Hfind.
  - by rewrite Hfind.
  - by rewrite getLocalOrders_Ret, Hfind.
Qed.

Lemma updateStatus_then_get (id : string) (status : OrderStatus) (w : World)
    (x : Order.t) :
  find_order id (targetOrders w) = Some x →
  fst (db.updateStatus id status w) = Ret () ∧
  db.getOrderById id (snd (db.updateStatus id status w))
    = Ret (Some (Order.with_status status (clock w (ticks w)) x)).
Proof.
  intros [i Hfind]%find_order_Some.
  destruct (updateStatus_found id status w i x Hfind) as (Hret & Hnet & Ht & Ho).
  destruct (insert_found id _ i x
              (Order.with_status status (clock w (ticks w)) x) Hfind)
    as (l1 & l2 & Hl & Hl' & Hl1 & Hx).
  split; [done|].
  rewrite getOrderById_lookup, Ht, Hl'. by rewrite find_order_first.
Qed.

(** ** Status changes *)

(** X3: On an id the store holds, [db.updateStatus] resolves; the order
    that reads back under the id afterwards has the requested status and
    the current time as updatedAt, and every other key of it -- id, amount,
    description, createdAt, payment, store and customer keys -- is what the
    stored order had; every order of another id reads back as before and
    the number of stored orders is the same. *)
Theorem updateStatus_touches_status_and_time_only (id : string)
    (status : OrderStatus) (w : World) (x : Order.t) :
  find_order id (targetOrders w) = Some x →
  fst (db.updateStatus id status w) = Ret () ∧
  (∃ y,
     db.getOrderById id (snd (db.updateStatus id status w)) = Ret (Some y) ∧
     Order.status y = status ∧
     Order.updatedAt y = clock w (ticks w) ∧
     same_but_status_and_time x y) ∧
  (∀ id', id' ≠ id →
     db.getOrderById id' (snd (db.updateStatus id status w))
     = db.getOrderById id' w) ∧
  length (targetOrders (snd (db.updateStatus id status w)))
    = length (targetOrders w).
Proof.
  intros Hx. pose proof Hx as [i Hfind]%find_order_Some.
  destruct (updateStatus_found id status w i x Hfind) as (Hret & Hnet & Ht & Ho).
  destruct (insert_found id _ i x
              (Order.with_status status (clock w (ticks w)) x) Hfind)
    as (l1 & l2 & Hl & Hl' & Hl1 & Hid).
  split; [done|]. split; [|split].
  - eexists. split; [by apply updateStatus_then_get|].
    unfold same_but_status_and_time. by repeat split.
  - intros id' Hne. rewrite !getOrderById_lookup, Ht, Ho, Hnet, Hl', Hl.
    rewrite (find_order_swap id' x); [done| |]; unfold has_id in *; simpl; congruence.
  - by rewrite Ht, length_insert.
Qed.

Lemma updateStatus_touches_status_and_time_only_witness :
  fst (db.updateStatus "a1" refunded (sampleWorld true [anaOrder] None)) = Ret () ∧
  (∃ y,
     db.getOrderById "a1"
       (snd (db.updateStatus "a1" refunded (sampleWorld true [anaOrder] None)))
     = Ret (Some y) ∧
     Order.status y = refunded ∧
     Order.updatedAt y = "T0" ∧
     same_but_status_and_time anaOrder y) ∧
  (∀ id', id' ≠ "a1" →
     db.getOrderById id'
       (snd (db.updateStatus "a1" refunded (sampleWorld true [anaOrder] None)))
     = db.getOrderById id' (sampleWorld true [anaOrder] None)) ∧
  length (targetOrders
            (snd (db.updateStatus "a1" refunded (sampleWorld true [anaOrder] None))))
    = 1.
Proof.
  apply (updateStatus_touches_status_and_time_only "a1" refunded
           (sampleWorld true [anaOrder] None) anaOrder).
  reflexivity.
Defined.

(** X4: No transition is refused: whatever status a stored order has, and
    whatever status a first call gives it, both calls resolve and the
    second one overwrites the first; the order that reads back has the
    status of the second call and the time of the second call as
    updatedAt, and every other key as the original order had it. *)
Theorem status_transitions_are_unchecked (id : string) (s1 s2 : OrderStatus)
    (w : World) (x : Order.t) :
  find_order id (targetOrders w) = Some x →
  fst (db.updateStatus id s1 w) = Ret () ∧
  fst (db.updateStatus id s2 (snd (db.updateStatus id s1 w))) = Ret () ∧
  ∃ y,
    db.getOrderById id
      (snd (db.updateStatus id s2 (snd (db.updateStatus id s1 w))))
    = Ret (Some y) ∧
    Order.status y = s2 ∧
    Order.updatedAt y = clock w (S (ticks w)) ∧
    same_but_status_and_time x y.
Proof.
  intros [i Hfind]%find_order_Some.
  destruct (updateStatus_found id s1 w i x Hfind) as (Hret1 & _ & Ht & _).
  destruct (updateStatus_clock id s1 w i x Hfind) as (Hclock & Hticks).
  destruct (insert_found id _ i x
              (Order.with_status s1 (clock w (ticks w)) x) Hfind)
    as (l1 & l2 & Hl & Hl' & Hl1 & Hx).
  set (w1 := snd (db.updateStatus id s1 w)) in *.
  assert (find_order id (targetOrders w1)
          = Some (Order.with_status s1 (clock w (ticks w)) x)) as Hfind1.
  { rewrite Ht, Hl'. by apply find_order_first. }
  destruct (updateStatus_then_get id s2 w1 _ Hfind1) as (Hret & Hget).
  split; [done|]. split; [done|].
  eexists. split; [exact Hget|]. rewrite Hclock, Hticks.
  unfold same_but_status_and_time. by repeat split.
Qed.

(** A completed order can be sent back to pending through a refund. *)
Lemma status_transitions_are_unchecked_witness :
  fst (db.updateStatus "a1" refunded
         (sampleWorld false [] (Some (Stringified sampleOrders)))) = Ret () ∧
  fst (db.updateStatus "a1" pending
         (snd (db.updateStatus "a1" refunded
                 (sampleWorld false [] (Some (Stringified sampleOrders)))))) = Ret () ∧
  ∃ y,
    db.getOrderById "a1"
      (snd (db.updateStatus "a1" pending
              (snd (db.updateStatus "a1" refunded
                      (sampleWorld false [] (Some (Stringified sampleOrders)))))))
    = Ret (Some y) ∧
    Order.status y = pending ∧
    Order.updatedAt y = "T1" ∧
    same_but_status_and_time (sampleOrder "a1" 100 completed (Some "s1")) y.
Proof.
  apply (status_transitions_are_unchecked "a1" refunded pending
           (sampleWorld false [] (Some (Stringified sampleOrders)))
           (sampleOrder "a1" 100 completed (Some "s1"))).
  reflexivity.
Defined.

(** ** Saves *)

(** X5: [db.saveOrder] leaves every order of another id as it was: it reads
    back the same before and after. *)
Theorem saveOrder_leaves_other_ids (o : Order.t) (w : World) (id' : string) :
  id' ≠ Order.id o →
  db.getOrderById id' (snd (db.saveOrder o w)) = db.getOrderById id' w.
Proof.
  intros Hne.
  destruct (saveOrder_spec o w) as (_ & Hnet & Hup).
  rewrite !getOrderById_lookup, saveOrder_other, Hnet.
  by rewrite (upserted_find_other (Order.id o) id' (savedDoc o w)
                (targetOrders w) _ (proj1 (savedDoc_required o w)) Hne Hup).
Qed.

Lemma saveOrder_leaves_other_ids_witness :
  db.getOrderById "b2"
    (snd (db.saveOrder (sampleOrder "a1" 250 pending None)
            (sampleWorld true sampleOrders None)))
  = db.getOrderById "b2" (sampleWorld true sampleOrders None).
Proof.
  apply (saveOrder_leaves_other_ids (sampleOrder "a1" 250 pending None)
           (sampleWorld true sampleOrders None) "b2").
  discriminate.
Defined.

(** X6: No write introduces a second order of an id: when the ids of the
    written store are pairwise distinct before [db.saveOrder],
    [db.updateStatus] or [handleGenerateLink], they still are afterwards. *)
Theorem writes_keep_ids_unique (parseFloat : string → float) (w : World) :
  ids_unique (targetOrders w) →
  (∀ o, ids_unique (targetOrders (snd (db.saveOrder o w)))) ∧
  (∀ id status, ids_unique (targetOrders (snd (db.updateStatus id status w)))) ∧
  (∀ amount description selectedStore,
     ids_unique
       (targetOrders
          (snd (handleGenerateLink parseFloat amount description selectedStore w)))).
Proof.
  intros Huniq. split; [|split].
  - intros o. by apply saveOrder_keeps_ids_unique.
  - intros id status. by apply updateStatus_keeps_ids_unique.
  - intros amount description selectedStore. unfold handleGenerateLink.
    destruct (Number.isNaN (parseFloat amount) || (parseFloat amount <? 10)%float
              || (6000 <? parseFloat amount)%float); [done|].
    simpl. destruct (db.saveOrder _ _) as [r w4] eqn:Hsave.
    change w4 with (snd (r, w4)). rewrite <- Hsave.
    by apply saveOrder_keeps_ids_unique.
Qed.

(** The three sample orders have three different ids. *)
Lemma sampleOrders_ids_unique : ids_unique sampleOrders.
Proof.
  intros k. unfold sampleOrders. rewrite !filter_cons, filter_nil.
  repeat case_decide; unfold has_id in *; simpl in *; subst; simpl;
    first [lia | discriminate].
Qed.

(** A save that meets a stored order of its id, a status change of a stored
    order, and a generated link, on a store of three orders. *)
Lemma writes_keep_ids_unique_witness :
  ids_unique
    (targetOrders
       (snd (db.saveOrder (sampleOrder "a1" 250 pending None)
               (sampleWorld true sampleOrders None)))) ∧
  ids_unique
    (targetOrders
       (snd (db.updateStatus "b2" completed (sampleWorld true sampleOrders None)))) ∧
  ids_unique
    (targetOrders
       (snd (handleGenerateLink sampleParse "100" "" (Some sampleStore)
               (sampleWorld true sampleOrders None)))).
Proof.
  destruct (writes_keep_ids_unique sampleParse (sampleWorld true sampleOrders None)
              sampleOrders_ids_unique)
    as (Hsave & Hstatus & Hlink).
  split; [apply Hsave|]. split; [apply Hstatus | apply Hlink].
Defined.

(** ** The link form *)

(** X7: Every order the link generator stores has an amount between 10 and
    6000: when the handler answers with a link, the order read back under
    that id satisfies 10 <= amount <= 6000. *)
Theorem generated_amount_in_range (parseFloat : string → float)
    (amount description : string) (selectedStore : option Store.t) (w : World)
    (id : string) :
  fst (handleGenerateLink parseFloat amount description selectedStore w)
  = LinkCopied id →
  ∃ y,
    db.getOrderById id
      (snd (handleGenerateLink parseFloat amount description selectedStore w))
    = Ret (Some y) ∧
    (10 <=? Order.amount y)%float = true ∧
    (Order.amount y <=? 6000)%float = true.
Proof.
  intros Hlink.
  destruct (Number.isNaN (parseFloat amount)) eqn:Hnum.
  { rewrite handleGenerateLink_rejects in Hlink by auto. discriminate Hlink. }
  destruct (parseFloat amount <? 10)%float eqn:Hmin.
  { rewrite handleGenerateLink_rejects in Hlink by auto. discriminate Hlink. }
  destruct (6000 <? parseFloat amount)%float eqn:Hmax.
  { rewrite handleGenerateLink_rejects in Hlink by auto. discriminate Hlink. }
  destruct (handleGenerateLink_accepts parseFloat amount description
              selectedStore w Hnum Hmin Hmax)
    as (o & w3 & Heq & Hid & Hamount & _).
  rewrite Heq in *. simpl in *. injection Hlink as <-.
  exists (savedDoc o w3).
  destruct (savedDoc_required o w3) as (_ & -> & _).
  rewrite Hamount. split; [rewrite <- Hid; apply saveOrder_then_get|].
  split; by apply not_ltb_leb.
Qed.

Lemma generated_amount_in_range_witness :
  ∃ y,
    db.getOrderById "k0"
      (snd (handleGenerateLink sampleParse "100" "" None (sampleWorld true [] None)))
    = Ret (Some y) ∧
    (10 <=? Order.amount y)%float = true ∧
    (Order.amount y <=? 6000)%float = true.
Proof.
  apply (generated_amount_in_range sampleParse "100" "" None
           (sampleWorld true [] None) "k0").
  reflexivity.
Defined.

(** X8: The submit button and the submit handler agree. Whenever the button
    is enabled the handler answers with a link and the order is in the
    store: it reads back under the link's id with the parsed amount and
    status pending. Whenever the button is disabled on a non-empty amount
    text the handler alerts and leaves the world, backend and cache, as it
    was. *)
Theorem enabled_submit_is_accepted (parseFloat : string → float)
    (amount description : string) (selectedStore : option Store.t) (w : World) :
  (submitDisabled (feeSimulation parseFloat amount) = false →
   fst (handleGenerateLink parseFloat amount description selectedStore w)
   = LinkCopied (random w (draws w)) ∧
   ∃ y,
     db.getOrderById (random w (draws w))
       (snd (handleGenerateLink parseFloat amount description selectedStore w))
     = Ret (Some y) ∧
     Order.amount y = parseFloat amount ∧
     Order.status y = pending) ∧
  (amount ≠ "" →
   submitDisabled (feeSimulation parseFloat amount) = true →
   handleGenerateLink parseFloat amount description selectedStore w
   = (Alert MSG_RANGE, w)).
Proof.
  split.
  - intros Henabled.
    assert (Number.isNaN (parseFloat amount) = false
            ∧ (parseFloat amount <? 10)%float = false
            ∧ (6000 <? parseFloat amount)%float = false) as (Hnum & Hmin & Hmax).
    { unfold submitDisabled, feeSimulation, feeRules in Henabled.
      destruct (decide (amount = "")); [done|].
      destruct (Number.isNaN (parseFloat amount)); [done|].
      destruct (parseFloat amount <? 10)%float; [done|].
      by destruct (6000 <? parseFloat amount)%float. }
    destruct (handleGenerateLink_accepts parseFloat amount description
                selectedStore w Hnum Hmin Hmax)
      as (o & w3 & -> & Hid & Hamount & Hstatus & _).
    destruct (savedDoc_required o w3) as (_ & Yamount & _ & _ & Ystatus & _).
    cbn [fst snd]. split; [done|].
    exists (savedDoc o w3).
    split; [rewrite <- Hid; apply saveOrder_then_get|].
    split; congruence.
  - intros Hne Hdisabled. apply handleGenerateLink_rejects.
    unfold submitDisabled, feeSimulation, feeRules in Hdisabled.
    destruct (decide (amount = "")); [done|].
    destruct (Number.isNaN (parseFloat amount)); [by left|].
    destruct (parseFloat amount <? 10)%float; [by right; left|].
    destruct (6000 <? parseFloat amount)%float; [by right; right|done].
Qed.

Lemma enabled_submit_is_accepted_witness :
  (fst (handleGenerateLink sampleParse "100" "" None (sampleWorld true sampleOrders None))
   = LinkCopied "k0" ∧
   ∃ y,
     db.getOrderById "k0"
       (snd (handleGenerateLink sampleParse "100" "" None
               (sampleWorld true sampleOrders None)))
     = Ret (Some y) ∧
     Order.amount y = 100%float ∧
     Order.status y = pending) ∧
  handleGenerateLink sampleParse "6000.01" "" None (sampleWorld true sampleOrders None)
  = (Alert MSG_RANGE, sampleWorld true sampleOrders None).
Proof.
  split.
  - apply (proj1 (enabled_submit_is_accepted sampleParse "100" "" None
                    (sampleWorld true sampleOrders None))).
    reflexivity.
  - apply (proj2 (enabled_submit_is_accepted sampleParse "6000.01" "" None
                    (sampleWorld true sampleOrders None))).
    + discriminate.
    + reflexivity.
Defined.

(** ** Counting and summing over stores *)

Lemma count_where_app (p : Order.t → bool) (l1 l2 : list Order.t) :
  count_where p (l1 ++ l2) = count_where p l1 + count_where p l2.
Proof. induction l1 as [|o l1 IH]; simpl; [done | rewrite IH; lia]. Qed.

Lemma amounts_where_app (p : Order.t → bool) (l1 l2 : list Order.t) :
  amounts_where p (l1 ++ l2) = (amounts_where p l1 ++ amounts_where p l2)%list.
Proof.
  induction l1 as [|o l1 IH]; simpl; [done|]. rewrite IH. by destruct (p o).
Qed.

Lemma count_where_le (p q : Order.t → bool) (l : list Order.t) :
  (∀ o, p o = true → q o = true) → (count_where p l ≤ count_where q l)%nat.
Proof.
  intros Hpq. induction l as [|o l IH]; simpl; [done|].
  specialize (Hpq o). destruct (p o) eqn:Hp, (q o) eqn:Hq; try lia.
Qed.

Lemma count_where_length (p : Order.t → bool) (l : list Order.t) :
  (∀ o, p o = true) → count_where p l = length l.
Proof.
  intros Hp. induction l as [|o l IH]; simpl; [done|]. by rewrite Hp, IH.
Qed.

Lemma in_scope_global (storeId : option string) (o : Order.t) :
  in_scope storeId o = true → in_scope None o = true.
Proof. done. Qed.

(** ** Metrics *)

(** X9: In every metrics answer the pending orders are among the counted
    orders; a store scope never counts more orders, nor more pending ones,
    than the global view; and the global view counts every stored order. *)
Theorem metrics_counts_are_bounded (storeId : option string) (w : World) :
  ∃ m g,
    db.getMetrics storeId w = Ret m ∧
    db.getMetrics None w = Ret g ∧
    (pendingOrders m ≤ totalOrders m)%nat ∧
    (totalOrders m ≤ totalOrders g)%nat ∧
    (pendingOrders m ≤ pendingOrders g)%nat ∧
    totalOrders g = length (targetOrders w).
Proof.
  exists (summarize (revenue_of w) storeId (targetOrders w)),
         (summarize (revenue_of w) None (targetOrders w)).
  rewrite !getMetrics_summarize. unfold summarize. simpl.
  repeat split.
  - apply count_where_le. by intros o [? _]%andb_true_iff.
  - by apply count_where_le.
  - apply count_where_le. by intros o [_ ?]%andb_true_iff.
  - by apply count_where_length.
Qed.

Lemma insert_same_scope_count (p : Order.t → bool) (x y : Order.t)
    (l1 l2 : list Order.t) :
  p x = p y → count_where p (l1 ++ y :: l2) = count_where p (l1 ++ x :: l2).
Proof. intros Hp. rewrite !count_where_app. simpl. by rewrite Hp. Qed.

(** X10: A status change never changes how many orders a scope counts, whatever
    the id, the status and the scope. *)
Theorem status_change_keeps_order_counts (id : string) (status : OrderStatus)
    (storeId : option string) (w : World) :
  ∃ m m',
    db.getMetrics storeId w = Ret m ∧
    db.getMetrics storeId (snd (db.updateStatus id status w)) = Ret m' ∧
    totalOrders m' = totalOrders m.
Proof.
  exists (summarize (revenue_of w) storeId (targetOrders w)),
         (summarize (revenue_of (snd (db.updateStatus id status w))) storeId
            (targetOrders (snd (db.updateStatus id status w)))).
  rewrite !getMetrics_summarize. split; [done|]. split; [done|].
  unfold summarize. simpl.
  destruct (list_find (has_id id) (targetOrders w)) as [[i x]|] eqn:Hfind.
  - destruct (updateStatus_found id status w i x Hfind) as (_ & _ & -> & _).
    destruct (insert_found id _ i x
                (Order.with_status status (clock w (ticks w)) x) Hfind)
      as (l1 & l2 & -> & -> & _).
    by apply insert_same_scope_count.
  - apply list_find_None in Hfind.
    by destruct (updateStatus_absent id status w Hfind) as (_ & _ & -> & _).
Qed.

(** X11: Taking a pending order of the scope out of pending lowers the scope's
    pending count by exactly one. *)
Theorem leaving_pending_lowers_pending_count (id : string) (status : OrderStatus)
    (storeId : option string) (w : World) (x : Order.t) :
  find_order id (targetOrders w) = Some x →
  Order.status x = pending →
  status ≠ pending →
  in_scope storeId x = true →
  ∃ m m',
    db.getMetrics storeId w = Ret m ∧
    db.getMetrics storeId (snd (db.updateStatus id status w)) = Ret m' ∧
    pendingOrders m = S (pendingOrders m').
Proof.
  intros [i Hfind]%find_order_Some Hpending Hstatus Hscope.
  exists (summarize (revenue_of w) storeId (targetOrders w)),
         (summarize (revenue_of (snd (db.updateStatus id status w))) storeId
            (targetOrders (snd (db.updateStatus id status w)))).
  rewrite !getMetrics_summarize. split; [done|]. split; [done|].
  unfold summarize. simpl.
  destruct (updateStatus_found id status w i x Hfind) as (_ & _ & -> & _).
  destruct (insert_found id _ i x
              (Order.with_status status (clock w (ticks w)) x) Hfind)
    as (l1 & l2 & -> & -> & _).
  rewrite !count_where_app. simpl.
  assert (in_scope storeId (Order.with_status status (clock w (ticks w)) x)
          = in_scope storeId x) as -> by done.
  rewrite Hscope. unfold is_status. simpl.
  rewrite (bool_decide_eq_true_2 _ Hpending).
  rewrite (bool_decide_eq_false_2 _ Hstatus). simpl. lia.
Qed.

Lemma leaving_pending_lowers_pending_count_witness :
  ∃ m m',
    db.getMetrics None (sampleWorld true sampleOrders None) = Ret m ∧
    db.getMetrics None
      (snd (db.updateStatus "b2" completed (sampleWorld true sampleOrders None)))
    = Ret m' ∧
    pendingOrders m = S (pendingOrders m').
Proof.
  apply (leaving_pending_lowers_pending_count "b2" completed None
           (sampleWorld true sampleOrders None)
           (sampleOrder "b2" 20 pending None)); try reflexivity.
  discriminate.
Defined.

Lemma upserted_fresh (id : string) (y : Order.t) (l l' : list Order.t) :
  Forall (λ o, ¬ has_id id o) l → upserted id y l l' → l' = (l ++ [y])%list.
Proof.
  intros Hfresh [l1 x l2 -> Hl1 Hx | Hl]; [|done].
  apply Forall_app in Hfresh as [_ Hfresh].
  by apply Forall_cons in Hfresh as [Hnot _].
Qed.

Lemma savedDoc_fresh (o : Order.t) (w : World) :
  Forall (λ x, ¬ has_id (Order.id o) x) (targetOrders w) →
  Order.status (savedDoc o w) = Order.status o ∧
  Order.store_id (savedDoc o w) = Order.store_id o.
Proof.
  intros Hfresh. unfold savedDoc, mongoose.findOne, targetOrders in *.
  destruct (online w); [|done].
  by rewrite (proj2 (list_find_None (has_id (Order.id o)) _) Hfresh).
Qed.

Lemma handleGenerateLink_saves (parseFloat : string → float)
    (amount description : string) (selectedStore : option Store.t) (w : World) :
  Number.isNaN (parseFloat amount) = false →
  (parseFloat amount <? 10)%float = false →
  (6000 <? parseFloat amount)%float = false →
  ∃ newOrder w3,
    handleGenerateLink parseFloat amount description selectedStore w
    = (LinkCopied (random w (draws w)), snd (db.saveOrder newOrder w3)) ∧
    Order.id newOrder = random w (draws w) ∧
    Order.status newOrder = pending ∧
    Order.store_id newOrder = Store.id <$> selectedStore ∧
    targetOrders w3 = targetOrders w ∧
    revenue_of w3 = revenue_of w.
Proof.
  intros Hnum Hmin Hmax. unfold handleGenerateLink.
  rewrite Hnum, Hmin, Hmax. simpl.
  match goal with
  | |- context [db.saveOrder ?o ?w3] => exists o, w3
  end.
  split; [|by repeat split].
  by destruct (db.saveOrder _ _).
Qed.

(** X12: A link generated under an id the store does not hold yet shows up in
    the metrics as one more order and one more pending order -- globally and
    in the scope of the selected store -- and leaves the revenue of every
    scope exactly as it was. *)
Theorem new_link_counts_as_pending (parseFloat : string → float)
    (amount description : string) (selectedStore : option Store.t)
    (storeId : option string) (w : World) :
  Number.isNaN (parseFloat amount) = false →
  (parseFloat amount <? 10)%float = false →
  (6000 <? parseFloat amount)%float = false →
  Forall (λ o, ¬ has_id (random w (draws w)) o) (targetOrders w) →
  ∃ m m',
    db.getMetrics storeId w = Ret m ∧
    db.getMetrics storeId
      (snd (handleGenerateLink parseFloat amount description selectedStore w))
    = Ret m' ∧
    totalRevenue m' = totalRevenue m ∧
    (scope_of storeId = None ∨ scope_of storeId = Store.id <$> selectedStore →
     totalOrders m' = S (totalOrders m) ∧ pendingOrders m' = S (pendingOrders m)) ∧
    (scope_of storeId ≠ None → scope_of storeId ≠ Store.id <$> selectedStore →
     m' = m).
Proof.
  intros Hnum Hmin Hmax Hfresh.
  destruct (handleGenerateLink_saves parseFloat amount description
              selectedStore w Hnum Hmin Hmax)
    as (o & w3 & -> & Hid & Hstatus & Hsid & Hw3 & Hrev3).
  simpl.
  exists (summarize (revenue_of w) storeId (targetOrders w)),
         (summarize (revenue_of w) storeId (targetOrders (snd (db.saveOrder o w3)))).
  rewrite !getMetrics_summarize, saveOrder_revenue_of, Hrev3.
  split; [done|]. split; [done|].
  destruct (saveOrder_spec o w3) as (_ & _ & Hup).
  rewrite Hw3, Hid in Hup.
  rewrite (upserted_fresh _ _ _ _ Hfresh Hup).
  assert (Forall (λ x, ¬ has_id (Order.id o) x) (targetOrders w3)) as Hfresh3
    by (by rewrite Hw3, Hid).
  destruct (savedDoc_fresh o w3 Hfresh3) as (Ystatus & Ysid).
  rewrite Hstatus in Ystatus. rewrite Hsid in Ysid.
  set (y := savedDoc o w3) in *.
  assert (is_status completed y = false) as Hcompleted
    by (apply bool_decide_eq_false_2; congruence).
  assert (is_status pending y = true) as Hpending
    by (by apply bool_decide_eq_true_2).
  assert (in_scope storeId y
          = match scope_of storeId with
            | Some sid => bool_decide (Store.id <$> selectedStore = Some sid)
            | None => true
            end) as Hscope.
  { rewrite in_scope_scope_of. destruct (scope_of storeId); [|done].
    apply bool_decide_ext. by rewrite Ysid. }
  unfold summarize. cbv zeta.
  rewrite !count_where_app, !amounts_where_app. simpl.
  rewrite Hcompleted, Hpending, !andb_false_r, !andb_true_r, app_nil_r.
  split; [done|]. split.
  - intros Hin.
    assert (in_scope storeId y = true) as ->.
    { rewrite Hscope. destruct Hin as [-> | ->]; [done|].
      destruct (Store.id <$> selectedStore); [|done].
      by apply bool_decide_eq_true_2. }
    split; lia.
  - intros Hsome Hother.
    assert (in_scope storeId y = false) as ->.
    { rewrite Hscope. destruct (scope_of storeId) as [sid|]; [|done].
      apply bool_decide_eq_false_2. congruence. }
    by rewrite !Nat.add_0_r.
Qed.

Lemma new_link_counts_as_pending_witness :
  ∃ m m',
    db.getMetrics (Some "s1") (sampleWorld true sampleOrders None) = Ret m ∧
    db.getMetrics (Some "s1")
      (snd (handleGenerateLink sampleParse "100" "" (Some sampleStore)
              (sampleWorld true sampleOrders None)))
    = Ret m' ∧
    totalRevenue m' = totalRevenue m ∧
    totalOrders m' = S (totalOrders m) ∧
    pendingOrders m' = S (pendingOrders m).
Proof.
  destruct (new_link_counts_as_pending sampleParse "100" "" (Some sampleStore)
              (Some "s1") (sampleWorld true sampleOrders None)
              eq_refl eq_refl eq_refl)
    as (m & m' & Hm & Hm' & Hrev & Hin & _).
  { apply (proj1 (list_find_None (has_id "k0") _)). vm_compute. reflexivity. }
  exists m, m'. destruct Hin as [Htotal Hpending]; [by right|].
  repeat split; assumption.
Defined.

(** ** Listing *)

Lemma sort_insert_Permutation {A} (compare : A → A → comparison) (a : A)
    (l : list A) :
  sort_insert compare a l ≡ₚ a :: l.
Proof.
  induction l as [|b l IH]; simpl; [done|].
  destruct (compare a b); try done.
  by rewrite IH, Permutation_swap.
Qed.

Lemma Array_sort_Permutation {A} (compare : A → A → comparison) (l : list A) :
  Array_sort compare l ≡ₚ l.
Proof.
  induction l as [|a l IH]; simpl; [done|].
  by rewrite sort_insert_Permutation, IH.
Qed.

Lemma scope_filter_reflect (storeId : option string) (l : list Order.t) :
  filter (mongoose.matches (scope_of storeId) None) l
  = filter (λ o, in_scope storeId o = true) l.
Proof. apply list_filter_iff. intros o. symmetry. apply matches_scope_reflect. Qed.

Lemma getAllOrders_Permutation (getTime : Timestamp → option Z)
    (storeId : option string) (w : World) :
  ∃ l, db_getAllOrders getTime storeId w = Ret l
       ∧ l ≡ₚ filter (λ o, in_scope storeId o = true) (targetOrders w).
Proof.
  unfold db_getAllOrders, axios, api_get_orders, find_sorted,
    db_localAllOrders, targetOrders.
  destruct (online w).
  - eexists. split; [done|].
    by rewrite Array_sort_Permutation, scope_of_idemp, scope_filter_reflect.
  - rewrite getLocalOrders_Ret. eexists. split; [done|].
    rewrite local_scope_filter, scope_filter_reflect.
    by rewrite Array_sort_Permutation.
Qed.

(** X13: The list and the count agree: [db.getAllOrders] returns exactly the
    orders of the store that are in scope, each as often as it is stored,
    and their number is the [totalOrders] that [db.getMetrics] reports for
    the same scope. *)
Theorem listing_matches_metrics (getTime : Timestamp → option Z)
    (storeId : option string) (w : World) :
  ∃ l m,
    db_getAllOrders getTime storeId w = Ret l ∧
    db.getMetrics storeId w = Ret m ∧
    l ≡ₚ filter (λ o, in_scope storeId o = true) (targetOrders w) ∧
    length l = totalOrders m.
Proof.
  destruct (getAllOrders_Permutation getTime storeId w) as (l & Hl & Hperm).
  exists l, (summarize (revenue_of w) storeId (targetOrders w)).
  rewrite getMetrics_summarize. repeat split; try done.
  rewrite Hperm. unfold summarize. simpl.
  apply length_filter_count. intros o. done.
Qed.

Section NewestFirst.
Context (getTime : Timestamp → option Z).

Let dated (o : Order.t) : Prop := is_Some (getTime (Order.createdAt o)).

Lemma not_older_trans (a b c : Order.t) :
  not_older getTime a b → not_older getTime b c → not_older getTime a c.
Proof.
  intros (ta & tb & Ha & Hb & Hab) (tb' & tc & Hb' & Hc & Hbc).
  exists ta, tc. repeat split; try done.
  rewrite Hb in Hb'. injection Hb' as <-. lia.
Qed.

Lemma sort_insert_sorted (a : Order.t) (l : list Order.t) :
  dated a → Forall dated l →
  StronglySorted (not_older getTime) l →
  StronglySorted (not_older getTime) (sort_insert (byNewest getTime) a l).
Proof.
  intros [ta Ha] Hl Hsorted.
  induction Hsorted as [|b l Hsorted IH Hb]; simpl.
  { repeat constructor. }
  apply Forall_cons in Hl as [[tb Hb'] Hl].
  assert (byNewest getTime a b = (tb ?= ta)%Z) as Hcmp
    by (unfold byNewest; by rewrite Ha, Hb').
  rewrite Hcmp.
  destruct (Z.compare_spec tb ta) as [Heq|Hlt|Hgt].
  - constructor; [by constructor|].
    assert (not_older getTime a b) as Hab by (exists ta, tb; repeat split; [done..|lia]).
    constructor; [done|].
    eapply Forall_impl; [exact Hb|]. intros c Hbc. by eapply not_older_trans.
  - constructor; [by constructor|].
    assert (not_older getTime a b) as Hab by (exists ta, tb; repeat split; [done..|lia]).
    constructor; [done|].
    eapply Forall_impl; [exact Hb|]. intros c Hbc. by eapply not_older_trans.
  - constructor; [by apply IH|].
    rewrite sort_insert_Permutation. constructor; [|done].
    exists tb, ta. repeat split; [done..|lia].
Qed.

Lemma Array_sort_sorted (l : list Order.t) :
  Forall dated l →
  StronglySorted (not_older getTime) (Array_sort (byNewest getTime) l).
Proof.
  induction 1 as [|a l Ha Hl IH]; simpl; [constructor|].
  apply sort_insert_sorted; [done| |done].
  by rewrite Array_sort_Permutation.
Qed.

Lemma StronglySorted_filter_keep (P : Order.t → Prop) `{!∀ o, Decision (P o)}
    (l : list Order.t) :
  StronglySorted (not_older getTime) l →
  StronglySorted (not_older getTime) (filter P l).
Proof.
  induction 1 as [|a l Hsorted IH Ha]; [constructor|].
  rewrite filter_cons. destruct (decide (P a)); [|done].
  constructor; [done|].
  apply Forall_forall. intros b [_ Hb]%list_elem_of_filter.
  by eapply (proj1 (Forall_forall _ _) Ha).
Qed.

End NewestFirst.

(** X14: When every stored order carries a readable date, [db.getAllOrders]
    lists newest first: each listed order was created no earlier than every
    order listed after it, through the backend and through the fallback. *)
Theorem listing_is_newest_first (getTime : Timestamp → option Z)
    (storeId : option string) (w : World) :
  Forall (λ o, is_Some (getTime (Order.createdAt o))) (targetOrders w) →
  ∃ l,
    db_getAllOrders getTime storeId w = Ret l ∧
    StronglySorted (not_older getTime) l.
Proof.
  unfold db_getAllOrders, axios, api_get_orders, find_sorted,
    db_localAllOrders, targetOrders.
  destruct (online w); intros Hdated.
  - eexists. split; [done|].
    apply Array_sort_sorted.
    apply Forall_forall. intros o [_ Ho]%list_elem_of_filter.
    by eapply (proj1 (Forall_forall _ _) Hdated).
  - rewrite getLocalOrders_Ret. eexists. split; [done|].
    rewrite local_scope_filter.
    by apply StronglySorted_filter_keep, Array_sort_sorted.
Qed.

Lemma datedOrders_dated :
  Forall (λ o, is_Some (sampleTime (Order.createdAt o))) datedOrders.
Proof. repeat (constructor; [by eexists|]). constructor. Qed.

(** Four orders of three dates, stored out of order, listed for one store:
    through the backend and through the fallback. *)
Lemma listing_is_newest_first_witness :
  (∃ l,
     db_getAllOrders sampleTime (Some "s1") (sampleWorld true datedOrders None)
     = Ret l ∧
     StronglySorted (not_older sampleTime) l) ∧
  (∃ l,
     db_getAllOrders sampleTime (Some "s1")
       (sampleWorld false [] (Some (Stringified datedOrders)))
     = Ret l ∧
     StronglySorted (not_older sampleTime) l).
Proof.
  split.
  - apply (listing_is_newest_first sampleTime (Some "s1")
             (sampleWorld true datedOrders None)).
    exact datedOrders_dated.
  - apply (listing_is_newest_first sampleTime (Some "s1")
             (sampleWorld false [] (Some (Stringified datedOrders)))).
    exact datedOrders_dated.
Defined.

(** The listing of that witness, spelled out: newest first, the other
    store's order left out, on both paths. *)
Example listing_of_dated_orders :
  db_getAllOrders sampleTime (Some "s1") (sampleWorld true datedOrders None)
  = Ret [ datedOrder "m2" "T2" (Some "s1");
          datedOrder "m1" "T1" (Some "s1");
          datedOrder "n0" "T0" (Some "s1") ]
  ∧ db_getAllOrders sampleTime (Some "s1")
      (sampleWorld false [] (Some (Stringified datedOrders)))
    = Ret [ datedOrder "m2" "T2" (Some "s1");
            datedOrder "m1" "T1" (Some "s1");
            datedOrder "n0" "T0" (Some "s1") ].
Proof. split; vm_compute; reflexivity. Qed.

(** ** Stores *)

Lemma getLocalStores_Ret (ls : Storage) : getLocalStores ls = Ret (cachedStores ls).
Proof. unfold getLocalStores, cachedStores. apply getLocal_Ret. Qed.

Lemma find_store_cons (id : string) (x : Store.t) (l : list Store.t) :
  find_store id (x :: l) = if decide (store_has_id id x) then Some x else find_store id l.
Proof.
  unfold find_store. simpl. destruct (decide (store_has_id id x)); [done|].
  by destruct (list_find (store_has_id id) l) as [[i y]|].
Qed.

Lemma find_store_app (id : string) (l1 l2 : list Store.t) :
  find_store id (l1 ++ l2)
  = match find_store id l1 with Some y => Some y | None => find_store id l2 end.
Proof.
  induction l1 as [|x l1 IH]; [done|].
  rewrite <- app_comm_cons, !find_store_cons.
  by destruct (decide (store_has_id id x)).
Qed.

Lemma find_store_None (id : string) (l : list Store.t) :
  find_store id l = None → list_find (store_has_id id) l = None.
Proof. unfold find_store. by destruct (list_find _ _). Qed.

Lemma find_store_insert (id : string) (l : list Store.t) (i : nat) (x y : Store.t) :
  list_find (store_has_id id) l = Some (i, x) → store_has_id id y →
  find_store id (<[i := y]> l) = Some y.
Proof.
  intros (Hi & Hx & Hbefore)%list_find_Some Hy.
  unfold find_store.
  assert (list_find (store_has_id id) (<[i := y]> l) = Some (i, y)) as ->; [|done].
  apply list_find_Some. split; [|split; [done|]].
  - apply list_lookup_insert_eq. by eapply lookup_lt_Some.
  - intros j z Hj Hlt. rewrite list_lookup_insert_ne in Hj by lia.
    by eapply Hbefore.
Qed.

Lemma site_eta (s : Site) : {| world := world s; mongoStores := mongoStores s |} = s.
Proof. by destruct s. Qed.

(** X15: [db.updateStore] on an id the store collection does not hold answers
    [null] -- through the backend (a 200 with a null body) as through the
    fallback -- and writes nothing. *)
Theorem updateStore_unknown_returns_null (store : Store.t) (s : Site) :
  find_store (Store.id store) (targetStores s) = None →
  db_updateStore store s = (Ret None, s).
Proof.
  intros Habsent%find_store_None.
  unfold db_updateStore, axios_stores, api_put_store, targetStores in *.
  destruct (online (world s)).
  - rewrite Habsent. by rewrite site_eta.
  - by rewrite getLocalStores_Ret, Habsent.
Qed.

Lemma updateStore_unknown_returns_null_witness :
  db_updateStore plainStore (sampleSite true [sampleStore] [])
  = (Ret None, sampleSite true [sampleStore] []).
Proof.
  apply (updateStore_unknown_returns_null plainStore
           (sampleSite true [sampleStore] [])).
  reflexivity.
Defined.

Lemma cachedStores_set (stores : list Store.t) (s : Site) :
  cachedStores (localStorage (world (setLocalStores stores s))) = stores.
Proof. reflexivity. Qed.

Lemma getStoreById_lookup (id : string) (s : Site) :
  db_getStoreById id s
  = Ret (if online (world s) then
           match find_store id (mongoStores s) with
           | Some y => Some y
           | None => find_store id (cachedStores (localStorage (world s)))
           end
         else find_store id (cachedStores (localStorage (world s)))).
Proof.
  unfold db_getStoreById, axios_stores, api_get_store.
  rewrite getLocalStores_Ret.
  destruct (online (world s)); [|done].
  by destruct (find_store id (mongoStores s)).
Qed.

Lemma online_setLocalStores (stores : list Store.t) (s : Site) :
  online (world (setLocalStores stores s)) = online (world s).
Proof. reflexivity. Qed.

Lemma mongoStores_setLocalStores (stores : list Store.t) (s : Site) :
  mongoStores (setLocalStores stores s) = mongoStores s.
Proof. reflexivity. Qed.

Lemma updateStore_offline (store : Store.t) (s : Site) (i : nat) (old : Store.t) :
  online (world s) = false →
  list_find (store_has_id (Store.id store)) (cachedStores (localStorage (world s)))
  = Some (i, old) →
  db_updateStore store s
  = (Ret (Some store),
     setLocalStores (<[i := store]> (cachedStores (localStorage (world s)))) s).
Proof.
  intros Hnet Hlf. unfold db_updateStore, axios_stores.
  by rewrite Hnet, getLocalStores_Ret, Hlf.
Qed.

Lemma createStore_offline (store : Store.t) (s : Site) :
  online (world s) = false →
  db_createStore store s
  = (Ret (Some store),
     setLocalStores (cachedStores (localStorage (world s)) ++ [store])%list s).
Proof.
  intros Hnet. unfold db_createStore, axios_stores.
  by rewrite Hnet, getLocalStores_Ret.
Qed.

Lemma updateStore_online (store : Store.t) (s : Site) (i : nat) (old : Store.t) :
  online (world s) = true →
  list_find (store_has_id (Store.id store)) (mongoStores s) = Some (i, old) →
  db_updateStore store s
  = (Ret (Some (store_apply_set store old)),
     {| world := world s;
        mongoStores := <[i := store_apply_set store old]> (mongoStores s) |}).
Proof.
  intros Hnet Hlf. unfold db_updateStore, axios_stores, api_put_store.
  rewrite Hnet, Hlf.
  by destruct (decide (Store.id store ≠ Store.id store ∧ _)) as [[Hne _]|_].
Qed.

Lemma list_find_store_Some (id : string) (l : list Store.t) (x : Store.t) :
  find_store id l = Some x → ∃ i, list_find (store_has_id id) l = Some (i, x).
Proof.
  unfold find_store. destruct (list_find (store_has_id id) l) as [[i y]|]; [|done].
  intros [= ->]. by exists i.
Qed.

(** X16: On an id the store collection holds, [db.updateStore] answers with the
    stored record and [db.getStoreById] reads it back. Through the fallback
    it is the given record, replacing the old one entirely. Through the
    backend its id, name and createdAt are the given record's, and each of
    description, apiKey and the two fees is the given record's value when
    it has one and the value stored before when it has none. *)
Theorem updateStore_then_read_back (store : Store.t) (s : Site) (old : Store.t) :
  find_store (Store.id store) (targetStores s) = Some old →
  ∃ y,
    fst (db_updateStore store s) = Ret (Some y) ∧
    db_getStoreById (Store.id store) (snd (db_updateStore store s)) = Ret (Some y) ∧
    (online (world s) = false → y = store) ∧
    (online (world s) = true →
     Store.id y = Store.id store ∧
     Store.name y = Store.name store ∧
     Store.createdAt y = Store.createdAt store ∧
     Store.description y
     = match Store.description store with
       | Some v => Some v
       | None => Store.description old
       end ∧
     Store.apiKey y
     = match Store.apiKey store with
       | Some v => Some v
       | None => Store.apiKey old
       end ∧
     Store.pixFeePercentage y
     = match Store.pixFeePercentage store with
       | Some v => Some v
       | None => Store.pixFeePercentage old
       end ∧
     Store.pixFeeFixed y
     = match Store.pixFeeFixed store with
       | Some v => Some v
       | None => Store.pixFeeFixed old
       end).
Proof.
  unfold targetStores. intros Hfind.
  destruct (online (world s)) eqn:Hnet;
    apply list_find_store_Some in Hfind as [i Hlf].
  - rewrite (updateStore_online store s i old Hnet Hlf).
    exists (store_apply_set store old). split; [done|]. split; [|done].
    cbn [snd]. rewrite getStoreById_lookup. cbn [world mongoStores].
    rewrite Hnet.
    by rewrite (find_store_insert _ _ i old (store_apply_set store old) Hlf eq_refl).
  - rewrite (updateStore_offline store s i old Hnet Hlf).
    exists store. split; [done|]. split; [|done].
    cbn [snd].
    rewrite getStoreById_lookup, online_setLocalStores, cachedStores_set, Hnet.
    by rewrite (find_store_insert _ _ i old store Hlf eq_refl).
Qed.

(** Renaming a store that has every optional key, with a record that has
    none: the backend keeps the four stored values. *)
Lemma updateStore_then_read_back_witness :
  ∃ y,
    fst (db_updateStore renamedStore (sampleSite true [fullStore] []))
    = Ret (Some y) ∧
    db_getStoreById "s1"
      (snd (db_updateStore renamedStore (sampleSite true [fullStore] [])))
    = Ret (Some y) ∧
    Store.id y = "s1" ∧
    Store.name y = "Loja Nova" ∧
    Store.createdAt y = "2024-05-03T09:00:00.000Z" ∧
    Store.description y = Some "Matriz" ∧
    Store.apiKey y = Some "pk_old" ∧
    Store.pixFeePercentage y = Some 0.99%float ∧
    Store.pixFeeFixed y = Some 0.5%float.
Proof.
  destruct (updateStore_then_read_back renamedStore
              (sampleSite true [fullStore] []) fullStore eq_refl)
    as (y & Hret & Hget & _ & Honline).
  exists y. split; [done|]. split; [done|].
  exact (Honline eq_refl).
Defined.

(** X17: Creating a store under an id the collection does not hold, with a
    non-empty id and name, stores it and reads it back. Through the
    fallback it is the given record. Through the backend its id, name,
    description, apiKey and createdAt are the given record's, and each of
    the two fees is the given record's value when it has one and 0 when it
    has none. *)
Theorem createStore_then_read_back (store : Store.t) (s : Site) :
  find_store (Store.id store) (targetStores s) = None →
  Store.id store ≠ "" → Store.name store ≠ "" →
  ∃ y,
    fst (db_createStore store s) = Ret (Some y) ∧
    db_getStoreById (Store.id store) (snd (db_createStore store s)) = Ret (Some y) ∧
    (online (world s) = false → y = store) ∧
    (online (world s) = true →
     Store.id y = Store.id store ∧
     Store.name y = Store.name store ∧
     Store.description y = Store.description store ∧
     Store.apiKey y = Store.apiKey store ∧
     Store.createdAt y = Store.createdAt store ∧
     Store.pixFeePercentage y
     = Some (match Store.pixFeePercentage store with
             | Some v => v
             | None => 0%float
             end) ∧
     Store.pixFeeFixed y
     = Some (match Store.pixFeeFixed store with
             | Some v => v
             | None => 0%float
             end)).
Proof.
  unfold targetStores. intros Hfresh Hid Hname.
  destruct (online (world s)) eqn:Hnet.
  - unfold db_createStore, axios_stores, api_post_stores. rewrite Hnet.
    destruct (decide (Store.id store = "" ∨ Store.name store = "")) as [[?|?]|_];
      [done..|].
    rewrite Hfresh.
    destruct (decide (is_Some None)) as [[? ?]|_]; [done|].
    exists (store_doc store). simpl. split; [done|]. split; [|done].
    rewrite getStoreById_lookup. simpl. rewrite Hnet.
    rewrite find_store_app, Hfresh, find_store_cons.
    by destruct (decide (store_has_id (Store.id store) (store_doc store))).
  - rewrite (createStore_offline store s Hnet).
    exists store. split; [done|]. split; [|done].
    cbn [snd].
    rewrite getStoreById_lookup, online_setLocalStores, cachedStores_set, Hnet.
    rewrite find_store_app, Hfresh, find_store_cons.
    by destruct (decide (store_has_id (Store.id store) store)).
Qed.

Lemma createStore_then_read_back_witness :
  ∃ y,
    fst (db_createStore plainStore (sampleSite true [sampleStore] []))
    = Ret (Some y) ∧
    db_getStoreById "s2"
      (snd (db_createStore plainStore (sampleSite true [sampleStore] [])))
    = Ret (Some y) ∧
    Store.id y = "s2" ∧
    Store.name y = "Loja Dois" ∧
    Store.description y = None ∧
    Store.apiKey y = None ∧
    Store.createdAt y = "2024-05-02T09:00:00.000Z" ∧
    Store.pixFeePercentage y = Some 0%float ∧
    Store.pixFeeFixed y = Some 0%float.
Proof.
  destruct (createStore_then_read_back plainStore
              (sampleSite true [sampleStore] []) eq_refl)
    as (y & Hret & Hget & _ & Honline); [discriminate..|].
  exists y. split; [done|]. split; [done|].
  exact (Honline eq_refl).
Defined.

(** X18: The fallback of [db.createStore] does not look at ids: created under an
    id the cache already holds, the new store is appended and reported as
    created, yet [db.getStoreById] keeps answering with the old one. *)
Theorem offline_duplicate_store_is_shadowed (store : Store.t) (s : Site)
    (old : Store.t) :
  online (world s) = false →
  find_store (Store.id store) (cachedStores (localStorage (world s))) = Some old →
  fst (db_createStore store s) = Ret (Some store) ∧
  cachedStores (localStorage (world (snd (db_createStore store s))))
    = (cachedStores (localStorage (world s)) ++ [store])%list ∧
  db_getStoreById (Store.id store) (snd (db_createStore store s)) = Ret (Some old).
Proof.
  intros Hnet Hold.
  rewrite (createStore_offline store s Hnet). cbn [fst snd].
  split; [done|]. split; [done|].
  rewrite getStoreById_lookup, online_setLocalStores, cachedStores_set, Hnet.
  by rewrite find_store_app, Hold.
Qed.

Lemma offline_duplicate_store_is_shadowed_witness :
  db_getStoreById "s1"
    (snd (db_createStore renamedStore (sampleSite false [] [sampleStore])))
  = Ret (Some sampleStore).
Proof.
  apply (offline_duplicate_store_is_shadowed renamedStore
           (sampleSite false [] [sampleStore]) sampleStore); reflexivity.
Defined.

(** X19: A creation the backend refuses -- empty id or name, or an id it
    already holds -- is not reported: [db.createStore] answers with the
    store, the backend collection is unchanged and the store is appended to
    the local cache. *)
Theorem refused_store_lands_in_cache (store : Store.t) (s : Site) :
  online (world s) = true →
  Store.id store = "" ∨ Store.name store = ""
  ∨ is_Some (find_store (Store.id store) (mongoStores s)) →
  fst (db_createStore store s) = Ret (Some store) ∧
  mongoStores (snd (db_createStore store s)) = mongoStores s ∧
  cachedStores (localStorage (world (snd (db_createStore store s))))
    = (cachedStores (localStorage (world s)) ++ [store])%list.
Proof.
  intros Hnet Hrefused.
  unfold db_createStore, axios_stores, api_post_stores. rewrite Hnet.
  destruct (decide (Store.id store = "" ∨ Store.name store = "")) as [Hbad|Hgood].
  - simpl. by rewrite getLocalStores_Ret.
  - destruct (decide (is_Some (find_store (Store.id store) (mongoStores s))))
      as [Hdup|Hnew].
    + simpl. by rewrite getLocalStores_Ret.
    + destruct Hrefused as [?|[?|?]]; [destruct Hgood; auto..|done].
Qed.

Lemma refused_store_lands_in_cache_witness :
  mongoStores (snd (db_createStore renamedStore (sampleSite true [sampleStore] [])))
  = [sampleStore]
  ∧ cachedStores (localStorage (world
      (snd (db_createStore renamedStore (sampleSite true [sampleStore] [])))))
    = [renamedStore].
Proof.
  destruct (refused_store_lands_in_cache renamedStore
              (sampleSite true [sampleStore] []) eq_refl)
    as (_ & Hmongo & Hcache).
  { right. right. by eexists. }
  split; [exact Hmongo | exact Hcache].
Defined.

(** ** The settings form *)

Lemma or_zero_idemp (x : option float) :
  Number.or_zero (Some (Number.or_zero x)) = Number.or_zero x.
Proof.
  destruct x as [v|]; [|reflexivity].
  assert (Number.or_zero (Some v)
          = if PrimFloat.is_nan v || (v =? 0)%float then 0%float else v) as Hv
    by reflexivity.
  destruct (PrimFloat.is_nan v || (v =? 0)%float); rewrite Hv; [reflexivity|done].
Qed.

(** X20: Saving the settings form as the selection filled it, without an edit,
    keeps the store's id, name, description and creation date and changes
    no estimate: the estimated fees and net of every metrics answer are the
    same for the saved record as for the selected one; and saving once more
    sends the same record again. *)
Theorem unedited_settings_keep_estimates (store : Store.t) (metrics : Metrics) :
  Store.id (updatedStore store (syncStoreForm store)) = Store.id store ∧
  Store.name (updatedStore store (syncStoreForm store)) = Store.name store ∧
  Store.description (updatedStore store (syncStoreForm store))
    = Store.description store ∧
  Store.createdAt (updatedStore store (syncStoreForm store))
    = Store.createdAt store ∧
  estimatedFees metrics (Some (updatedStore store (syncStoreForm store)))
    = estimatedFees metrics (Some store) ∧
  estimatedNet metrics (Some (updatedStore store (syncStoreForm store)))
    = estimatedNet metrics (Some store) ∧
  updatedStore (updatedStore store (syncStoreForm store))
    (syncStoreForm (updatedStore store (syncStoreForm store)))
  = updatedStore store (syncStoreForm store).
Proof.
  unfold estimatedNet, estimatedFees, updatedStore, syncStoreForm.
  cbn [Store.id Store.name Store.description Store.createdAt Store.apiKey
       Store.pixFeePercentage Store.pixFeeFixed form_apiKey feePercent feeFixed].
  rewrite !or_zero_idemp. by repeat split.
Qed.


(** X21: Saving the settings of a selected store that the collection holds
    stores the three values of the form: the record read back afterwards
    carries the form's API key and fees (and the selection's id and name),
    through the backend as through the fallback, and it becomes the new
    selection. With no store selected nothing is sent. *)
Theorem saved_settings_are_the_form (selectedStore old : Store.t)
    (form : StoreSettingsForm) (s : Site) :
  find_store (Store.id selectedStore) (targetStores s) = Some old →
  handleSaveStoreSettings None form s = (None, s) ∧
  fst (handleSaveStoreSettings (Some selectedStore) form s)
    = Some (updatedStore selectedStore form) ∧
  ∃ y,
    db_getStoreById (Store.id selectedStore)
      (snd (handleSaveStoreSettings (Some selectedStore) form s))
    = Ret (Some y) ∧
    Store.id y = Store.id selectedStore ∧
    Store.name y = Store.name selectedStore ∧
    Store.apiKey y = Some (form_apiKey form) ∧
    Store.pixFeePercentage y = Some (feePercent form) ∧
    Store.pixFeeFixed y = Some (feeFixed form).
Proof.
  intros Hold. split; [done|].
  unfold handleSaveStoreSettings, targetStores in *.
  set (updated := updatedStore selectedStore form).
  change (Store.id selectedStore) with (Store.id updated) in *.
  destruct (online (world s)) eqn:Hnet;
    apply list_find_store_Some in Hold as [i Hlf].
  - rewrite (updateStore_online updated s i old Hnet Hlf).
    split; [done|]. exists (store_apply_set updated old).
    split; [|done].
    cbn [snd]. rewrite getStoreById_lookup. cbn [world mongoStores].
    rewrite Hnet.
    by rewrite (find_store_insert _ _ i old (store_apply_set updated old) Hlf eq_refl).
  - rewrite (updateStore_offline updated s i old Hnet Hlf).
    split; [done|]. exists updated. split; [|done].
    cbn [snd].
    rewrite getStoreById_lookup, online_setLocalStores, cachedStores_set, Hnet.
    by rewrite (find_store_insert _ _ i old updated Hlf eq_refl).
Qed.

Lemma saved_settings_are_the_form_witness :
  ∃ y,
    db_getStoreById "s1"
      (snd (handleSaveStoreSettings (Some sampleStore)
              {| form_apiKey := "pk_s1"; feePercent := 1.5; feeFixed := 0.25 |}
              (sampleSite true [sampleStore] [])))
    = Ret (Some y) ∧
    Store.pixFeePercentage y = Some 1.5%float.
Proof.
  destruct (saved_settings_are_the_form sampleStore sampleStore
              {| form_apiKey := "pk_s1"; feePercent := 1.5; feeFixed := 0.25 |}
              (sampleSite true [sampleStore] []) eq_refl)
    as (_ & _ & y & Hget & _ & _ & _ & Hpct & _).
  exists y. split; [exact Hget | exact Hpct].
Defined.

(** ** The checkout link *)

Lemma fragment_after_base (base rest : string) :
  fragment (before_hash base +:+ String "#"%char rest) = Some rest.
Proof.
  induction base as [|c base IH]; simpl.
  - by destruct (decide ("#"%char = "#"%char)).
  - destruct (decide (c = "#"%char)) as [->|Hc]; simpl.
    + by destruct (decide ("#"%char = "#"%char)).
    + by destruct (decide (c = "#"%char)).
Qed.

Lemma before_hash_base (base rest : string) :
  before_hash (before_hash base +:+ String "#"%char rest) = before_hash base.
Proof.
  induction base as [|c base IH]; simpl.
  - by destruct (decide ("#"%char = "#"%char)).
  - destruct (decide (c = "#"%char)) as [->|Hc]; simpl.
    + by destruct (decide ("#"%char = "#"%char)).
    + destruct (decide (c = "#"%char)); [done|]. by rewrite IH.
Qed.

(** X22: The copied link carries the order id in its fragment, whatever the page
    address and the id: the fragment of the link is [/checkout/] followed by
    the id. A fragment the page address already had is dropped, so a link
    copied from a page opened through a link has the same base. *)
Theorem checkout_link_fragment_is_the_order (href id : string) :
  fragment (checkoutLink href id) = Some ("/checkout/" +:+ id) ∧
  before_hash (checkoutLink href id) = before_hash href ∧
  checkoutLink (checkoutLink href id) id = checkoutLink href id.
Proof.
  unfold checkoutLink.
  change ("#/checkout/" +:+ id) with (String "#"%char ("/checkout/" +:+ id)).
  split; [apply fragment_after_base|].
  split; [apply before_hash_base|].
  by rewrite before_hash_base.
Qed.
